(** * i8042 PS/2 controller driver: bring-up and scancode decoding

    A shallow embedding of [i8042_driver.c].  The driver talks to three
    collaborators: the two I/O ports of the controller, the clock that bounds
    its polling loops, and the kernel's input and interrupt services.  All
    three are oracles of an [environment]; what the driver does to them is
    recorded, in program order, in a [trace]. *)

From Stdlib Require Import ZArith List Bool Lia.
Import ListNotations.
Open Scope Z_scope.

(** ** Constants of the driver *)

Definition I8042_IRQ1 : Z := 1.
Definition I8042_IRQ12 : Z := 12.

Definition I8042_DATA_REG : Z := 0x60.
Definition I8042_STATUS_REG : Z := 0x64.
Definition I8042_COMMAND_REG : Z := 0x64.

Definition I8042_READ_CONFIG_BYTE : Z := 0x20.
Definition I8042_WRITE_CONFIG_BYTE : Z := 0x60.
Definition I8042_WRITE_SECOND_PS2_INPUT_BUFFER : Z := 0xD4.
Definition I8042_DISABLE_FIRST_PS2_PORT : Z := 0xAD.
Definition I8042_DISABLE_SECOND_PS2_PORT : Z := 0xA7.
Definition I8042_ENABLE_FIRST_PS2_PORT : Z := 0xAE.
Definition I8042_ENABLE_SECOND_PS2_PORT : Z := 0xA8.
Definition I8042_SELF_TEST : Z := 0xAA.
Definition I8042_FIRST_PORT_INTERFACE_TEST : Z := 0xAB.
Definition I8042_SECOND_PORT_INTERFACE_TEST : Z := 0xA9.

Definition I8042_RESET : Z := 0xFF.
Definition I8042_DISABLE_SCANNING : Z := 0xF5.
Definition I8042_IDENTIFY : Z := 0xF2.
Definition I8042_KBD_ENABLE : Z := 0xF4.

Definition UNDEFINED : Z := 0.
Definition KEYBOARD : Z := 1.
Definition MOUSE : Z := 2.

(** Error numbers and the handler's return value, as the kernel headers give
    them (they are not part of the driver's own source). *)
Definition ENOMEM : Z := 12.
Definition EBUSY : Z := 16.
Definition EINVAL : Z := 22.
Definition ETIME : Z := 62.
Definition IRQ_HANDLED : Z := 1.

(** The key identities the tables name.  [KEY_RESERVED] only serves as the
    value of an out-of-range table access, which the loops never perform. *)
Inductive key : Set :=
| KEY_RESERVED
| KEY_ESC | KEY_1 | KEY_2 | KEY_3 | KEY_4 | KEY_5 | KEY_6 | KEY_7 | KEY_8
| KEY_9 | KEY_0 | KEY_MINUS | KEY_EQUAL | KEY_BACKSPACE | KEY_TAB
| KEY_Q | KEY_W | KEY_E | KEY_R | KEY_T | KEY_Y | KEY_U | KEY_I | KEY_O
| KEY_P | KEY_LEFTBRACE | KEY_RIGHTBRACE | KEY_ENTER | KEY_LEFTCTRL
| KEY_A | KEY_S | KEY_D | KEY_F | KEY_G | KEY_H | KEY_J | KEY_K | KEY_L
| KEY_SEMICOLON | KEY_APOSTROPHE | KEY_GRAVE | KEY_LEFTSHIFT | KEY_BACKSLASH
| KEY_Z | KEY_X | KEY_C | KEY_V | KEY_B | KEY_N | KEY_M | KEY_COMMA | KEY_DOT
| KEY_SLASH | KEY_RIGHTSHIFT | KEY_KPASTERISK | KEY_LEFTALT | KEY_SPACE
| KEY_CAPSLOCK | KEY_F1 | KEY_F2 | KEY_F3 | KEY_F4 | KEY_F5 | KEY_F6 | KEY_F7
| KEY_F8 | KEY_F9 | KEY_F10 | KEY_NUMLOCK | KEY_SCROLLLOCK | KEY_KP7 | KEY_KP8
| KEY_KP9 | KEY_KPMINUS | KEY_KP4 | KEY_KP5 | KEY_KP6 | KEY_KPPLUS | KEY_KP1
| KEY_KP2 | KEY_KP3 | KEY_KP0 | KEY_KPDOT | KEY_F11 | KEY_F12
| KEY_KPENTER | KEY_RIGHTCTRL | KEY_RIGHTALT | KEY_HOME | KEY_UP | KEY_PAGEUP
| KEY_LEFT | KEY_RIGHT | KEY_END | KEY_DOWN | KEY_PAGEDOWN | KEY_INSERT
| KEY_DELETE.

(** ** Scancode tables *)

Definition press_scancodes : list Z :=
  [      0x01; 0x02; 0x03; 0x04; 0x05; 0x06; 0x07; 0x08; 0x09; 0x0A; 0x0B; 0x0C; 0x0D; 0x0E; 0x0F;
   0x10; 0x11; 0x12; 0x13; 0x14; 0x15; 0x16; 0x17; 0x18; 0x19; 0x1A; 0x1B; 0x1C; 0x1D; 0x1E; 0x1F;
   0x20; 0x21; 0x22; 0x23; 0x24; 0x25; 0x26; 0x27; 0x28; 0x29; 0x2A; 0x2B; 0x2C; 0x2D; 0x2E; 0x2F;
   0x30; 0x31; 0x32; 0x33; 0x34; 0x35; 0x36; 0x37; 0x38; 0x39; 0x3A; 0x3B; 0x3C; 0x3D; 0x3E; 0x3F;
   0x40; 0x41; 0x42; 0x43; 0x44; 0x45; 0x46; 0x47; 0x48; 0x49; 0x4A; 0x4B; 0x4C; 0x4D; 0x4E; 0x4F;
   0x50; 0x51; 0x52; 0x53;                   0x57; 0x58 ].

Definition release_scancodes : list Z :=
  [      0x81; 0x82; 0x83; 0x84; 0x85; 0x86; 0x87; 0x88; 0x89; 0x8A; 0x8B; 0x8C; 0x8D; 0x8E; 0x8F;
   0x90; 0x91; 0x92; 0x93; 0x94; 0x95; 0x96; 0x97; 0x98; 0x99; 0x9A; 0x9B; 0x9C; 0x9D; 0x9E; 0x9F;
   0xA0; 0xA1; 0xA2; 0xA3; 0xA4; 0xA5; 0xA6; 0xA7; 0xA8; 0xA9; 0xAA; 0xAB; 0xAC; 0xAD; 0xAE; 0xAF;
   0xB0; 0xB1; 0xB2; 0xB3; 0xB4; 0xB5; 0xB6; 0xB7; 0xB8; 0xB9; 0xBA; 0xBB; 0xBC; 0xBD; 0xBE; 0xBF;
   0xC0; 0xC1; 0xC2; 0xC3; 0xC4; 0xC5; 0xC6; 0xC7; 0xC8; 0xC9; 0xCA; 0xCB; 0xCC; 0xCD; 0xCE; 0xCF;
   0xD0; 0xD1; 0xD2; 0xD3;                   0xD7; 0xD8 ].

Definition keys : list key :=
  [        KEY_ESC; KEY_1;   KEY_2;     KEY_3;    KEY_4;       KEY_5;          KEY_6;          KEY_7;          KEY_8;     KEY_9;         KEY_0;          KEY_MINUS; KEY_EQUAL;    KEY_BACKSPACE;  KEY_TAB;
   KEY_Q;   KEY_W;   KEY_E;   KEY_R;     KEY_T;    KEY_Y;       KEY_U;          KEY_I;          KEY_O;          KEY_P;     KEY_LEFTBRACE; KEY_RIGHTBRACE; KEY_ENTER; KEY_LEFTCTRL; KEY_A;          KEY_S;
   KEY_D;   KEY_F;   KEY_G;   KEY_H;     KEY_J;    KEY_K;       KEY_L;          KEY_SEMICOLON;  KEY_APOSTROPHE; KEY_GRAVE; KEY_LEFTSHIFT; KEY_BACKSLASH;  KEY_Z;     KEY_X;        KEY_C;          KEY_V;
   KEY_B;   KEY_N;   KEY_M;   KEY_COMMA; KEY_DOT;  KEY_SLASH;   KEY_RIGHTSHIFT; KEY_KPASTERISK; KEY_LEFTALT;    KEY_SPACE; KEY_CAPSLOCK;  KEY_F1;         KEY_F2;    KEY_F3;       KEY_F4;         KEY_F5;
   KEY_F6;  KEY_F7;  KEY_F8;  KEY_F9;    KEY_F10;  KEY_NUMLOCK; KEY_SCROLLLOCK; KEY_KP7;        KEY_KP8;        KEY_KP9;   KEY_KPMINUS;   KEY_KP4;        KEY_KP5;   KEY_KP6;      KEY_KPPLUS;     KEY_KP1;
   KEY_KP2; KEY_KP3; KEY_KP0; KEY_KPDOT;                        KEY_F11;        KEY_F12 ].

Definition esc_press_scancodes : list Z :=
  [0x1C; 0x1D; 0x2A; 0x36; 0x38; 0x47; 0x48; 0x49; 0x4B; 0x4D; 0x4F; 0x50; 0x51; 0x52; 0x53].

Definition esc_release_scancodes : list Z :=
  [0x9C; 0x9D; 0xAA; 0xB6; 0xB8; 0xC7; 0xC8; 0xC9; 0xCB; 0xCD; 0xCF; 0xD0; 0xD1; 0xD2; 0xD3].

Definition esc_keys : list key :=
  [KEY_KPENTER; KEY_RIGHTCTRL; KEY_LEFTSHIFT; KEY_RIGHTSHIFT; KEY_RIGHTALT; KEY_HOME; KEY_UP;
   KEY_PAGEUP; KEY_LEFT; KEY_RIGHT; KEY_END; KEY_DOWN; KEY_PAGEDOWN; KEY_INSERT; KEY_DELETE].

(** ** The world the driver runs in *)

(** The two [struct input_dev] objects behind the globals [dev1], [dev2]. *)
Inductive input_dev : Set := Dev1 | Dev2.

(** What the driver does to its collaborators. *)
Inductive action : Set :=
| Outb (value port : Z)
| InputAllocateDevice (d : input_dev) (ok : bool)
| InputRegisterDevice (d : input_dev) (ret : Z)
| RequestIrq (irq : Z) (d : input_dev) (ret : Z)
| FreeIrq (irq : Z) (d : input_dev)
| InputUnregisterDevice (d : input_dev)
| InputFreeDevice (d : input_dev)
| InputReportKey (d : input_dev) (code : key) (value : Z)
| InputSync (d : input_dev).

(** The oracles.  [status_in n] and [data_in n] are the values the [n]-th
    [inb] of port 0x64, respectively 0x60, returns.  [polls ms] is the number
    of iterations a polling loop completes before [jiffies] reaches its
    deadline of [ms] milliseconds.  The last three fields are the results of
    [input_allocate_device] (is the pointer non-null), of
    [input_register_device] and of [request_irq]. *)
Record environment : Type := mkEnv {
  status_in : nat -> Z;
  data_in : nat -> Z;
  polls : Z -> nat;
  alloc_ok : input_dev -> bool;
  register_ret : input_dev -> Z;
  request_irq_ret : Z -> Z
}.

(** Oracles, read cursors, the trace, and the two globals [first_port] and
    [second_port]. *)
Record world : Type := mkWorld {
  env : environment;
  n_status : nat;
  n_data : nat;
  trace : list action;
  first_port : Z;
  second_port : Z
}.

Definition next_status (w : world) : world :=
  mkWorld (env w) (S (n_status w)) (n_data w) (trace w) (first_port w) (second_port w).

Definition next_data (w : world) : world :=
  mkWorld (env w) (n_status w) (S (n_data w)) (trace w) (first_port w) (second_port w).

Definition log (a : action) (w : world) : world :=
  mkWorld (env w) (n_status w) (n_data w) (trace w ++ [a]) (first_port w) (second_port w).

Definition with_first_port (v : Z) (w : world) : world :=
  mkWorld (env w) (n_status w) (n_data w) (trace w) v (second_port w).

Definition with_second_port (v : Z) (w : world) : world :=
  mkWorld (env w) (n_status w) (n_data w) (trace w) (first_port w) v.

(** The state of a freshly loaded module: nothing read, nothing done, both
    globals zero-initialised. *)
Definition fresh (e : environment) : world := mkWorld e 0 0 [] 0 0.

(** ** Control: a state monad with [return] and [goto] *)

(** The labels of [init_module].  A cleanup label carries the value the
    local [error] holds at the jump. *)
Inductive label : Set :=
| first_port_fail
| second_port_fail
| err_first_irq12_free (error : Z)
| err_first_dev2_unreg (error : Z)
| err_irq1_free (error : Z)
| err_dev1_unreg (error : Z)
| err_second_irq12_free (error : Z)
| err_second_dev2_unreg (error : Z)
| err_dev1_free (error : Z)
| err_first_dev2_free (error : Z)
| err_second_dev2_free (error : Z).

Inductive outcome (A : Type) : Type :=
| Normal (a : A)
| Return (code : Z)
| Goto (l : label).

Arguments Normal {A} a.
Arguments Return {A} code.
Arguments Goto {A} l.

Definition M (A : Type) : Type := world -> outcome A * world.

Definition ret {A : Type} (a : A) : M A := fun w => (Normal a, w).

Definition bind {A B : Type} (m : M A) (k : A -> M B) : M B :=
  fun w =>
    match m w with
    | (Normal a, w') => k a w'
    | (Return c, w') => (Return c, w')
    | (Goto l, w') => (Goto l, w')
    end.

Declare Scope drv_scope.
Delimit Scope drv_scope with drv.
Notation "x <- m ;; k" := (bind m (fun x => k))
  (at level 61, m at next level, right associativity) : drv_scope.
Notation "m ;; k" := (bind m (fun _ => k))
  (at level 61, right associativity) : drv_scope.
Open Scope drv_scope.

Definition do_return {A : Type} (code : Z) : M A := fun w => (Return code, w).
Definition goto {A : Type} (l : label) : M A := fun w => (Goto l, w).
Definition emit (a : action) : M unit := fun w => (Normal tt, log a w).
Definition get {A : Type} (f : world -> A) : M A := fun w => (Normal (f w), w).
Definition set_first_port (v : Z) : M unit := fun w => (Normal tt, with_first_port v w).
Definition set_second_port (v : Z) : M unit := fun w => (Normal tt, with_second_port v w).

(** A statement followed by a label: a jump to that label from inside lands
    right after the statement. *)
Definition upto (here : label -> bool) (m : M unit) : M unit :=
  fun w =>
    match m w with
    | (Goto l, w') => if here l then (Normal tt, w') else (Goto l, w')
    | r => r
    end.

Definition is_first_port_fail (l : label) : bool :=
  match l with first_port_fail => true | _ => false end.

Definition is_second_port_fail (l : label) : bool :=
  match l with second_port_fail => true | _ => false end.

(** ** Port and kernel primitives *)

(** [inb]: a byte from the oracle of the port read. *)
Definition inb (port : Z) : M Z :=
  fun w =>
    if port =? I8042_STATUS_REG
    then (Normal (status_in (env w) (n_status w) mod 256), next_status w)
    else (Normal (data_in (env w) (n_data w) mod 256), next_data w).

Definition outb (value port : Z) : M unit := emit (Outb value port).

Definition input_report_key (d : input_dev) (code : key) (value : Z) : M unit :=
  emit (InputReportKey d code value).

Definition input_sync (d : input_dev) : M unit := emit (InputSync d).

Definition input_allocate_device (d : input_dev) : M bool :=
  fun w => let ok := alloc_ok (env w) d in (Normal ok, log (InputAllocateDevice d ok) w).

Definition input_register_device (d : input_dev) : M Z :=
  fun w => let r := register_ret (env w) d in (Normal r, log (InputRegisterDevice d r) w).

Definition request_irq (irq : Z) (d : input_dev) : M Z :=
  fun w => let r := request_irq_ret (env w) irq in (Normal r, log (RequestIrq irq d r) w).

Definition free_irq (irq : Z) (d : input_dev) : M unit := emit (FreeIrq irq d).
Definition input_unregister_device (d : input_dev) : M unit := emit (InputUnregisterDevice d).
Definition input_free_device (d : input_dev) : M unit := emit (InputFreeDevice d).

(** ** The interrupt handler *)

(** The [for] loop of the handler over one triple of tables: [n] iterations
    are left, [i] is the loop index. *)
Fixpoint scan_tables (n i : nat) (scancode : Z) (press release : list Z)
    (ks : list key) (dev : input_dev) : M unit :=
  match n with
  | O => ret tt
  | S n' =>
      if scancode =? nth i press 0 then input_report_key dev (nth i ks KEY_RESERVED) 1
      else if scancode =? nth i release 0 then input_report_key dev (nth i ks KEY_RESERVED) 0
      else scan_tables n' (S i) scancode press release ks dev
  end.

Definition i8042_handler (irq : Z) (dev : input_dev) : M Z :=
  scancode <- inb I8042_DATA_REG ;;
  (if irq =? I8042_IRQ1 then
     if negb (scancode =? 0xE0) then
       scan_tables 85 0 scancode press_scancodes release_scancodes keys dev
     else
       scancode <- inb I8042_DATA_REG ;;
       scan_tables 15 0 scancode esc_press_scancodes esc_release_scancodes esc_keys dev
   else if irq =? I8042_IRQ12 then ret tt
   else ret tt) ;;
  input_sync dev ;;
  ret IRQ_HANDLED.

(** ** Polling primitives *)

(** The loop of [read_reg] with [n] iterations left before the deadline.
    [Some b] is the return value 0 with [*byte = b]; [None] is -1. *)
Fixpoint read_reg_loop (n : nat) : M (option Z) :=
  match n with
  | O => ret None
  | S n' =>
      status <- inb I8042_STATUS_REG ;;
      if Z.testbit status 0 then (b <- inb I8042_DATA_REG ;; ret (Some b))
      else read_reg_loop n'
  end.

Definition read_reg (wait_time : Z) : M (option Z) :=
  fun w => read_reg_loop (polls (env w) wait_time) w.

Fixpoint write_loop (n : nat) (byte : Z) : M Z :=
  match n with
  | O => ret (-1)
  | S n' =>
      status <- inb I8042_STATUS_REG ;;
      if negb (Z.testbit status 1) then (outb byte I8042_DATA_REG ;; ret 0)
      else write_loop n' byte
  end.

(** [write_dev1] and [write_dev2]: [byte] stands for a value of the
    [uint8_t] parameter, 0 to 255. *)
Definition write_dev1 (byte : Z) (wait_time : Z) : M Z :=
  fun w => write_loop (polls (env w) wait_time) byte w.

Definition write_dev2 (byte : Z) (wait_time : Z) : M Z :=
  outb I8042_WRITE_SECOND_PS2_INPUT_BUFFER I8042_COMMAND_REG ;;
  (fun w => write_loop (polls (env w) wait_time) byte w).

(** ** Bring-up: [init_module] *)

Definition truthy (z : Z) : bool := negb (z =? 0).

Definition when (c : bool) (m : M unit) : M unit := if c then m else ret tt.

(** [if (read_reg(&byte, 250) < 0) { on_timeout }], yielding [byte]. *)
Definition await (on_timeout : M Z) : M Z :=
  r <- read_reg 250 ;;
  match r with
  | Some byte => ret byte
  | None => on_timeout
  end.

(** "This code disables PS/2 ports" *)
Definition disable_ports : M unit :=
  outb I8042_DISABLE_FIRST_PS2_PORT I8042_COMMAND_REG ;;
  outb I8042_DISABLE_SECOND_PS2_PORT I8042_COMMAND_REG.

(** "This code flushes output buffer" *)
Definition flush_output_buffer : M unit :=
  outb I8042_READ_CONFIG_BYTE I8042_COMMAND_REG ;;
  _ <- await (do_return (- ETIME)) ;;
  ret tt.

(** "This code sets config byte"; the result is [dual_channel_test]. *)
Definition set_config_byte : M bool :=
  outb I8042_READ_CONFIG_BYTE I8042_COMMAND_REG ;;
  byte <- await (do_return (- ETIME)) ;;
  let byte := Z.clearbit byte 0 in
  let byte := Z.clearbit byte 1 in
  let byte := Z.clearbit byte 6 in
  outb byte I8042_DATA_REG ;;
  byte <- await (do_return (- ETIME)) ;;
  outb I8042_WRITE_CONFIG_BYTE I8042_COMMAND_REG ;;
  ret (Z.testbit byte 5).

(** "This code performs i8042 self check" *)
Definition self_test : M unit :=
  outb I8042_SELF_TEST I8042_COMMAND_REG ;;
  byte <- await (do_return (- ETIME)) ;;
  if byte =? 0x55 then ret tt else do_return (- EINVAL).

(** "This code determines if there are 2 channels" *)
Definition probe_dual_channel (dual_channel_test : bool) : M bool :=
  if dual_channel_test then
    outb I8042_ENABLE_SECOND_PS2_PORT I8042_COMMAND_REG ;;
    outb I8042_READ_CONFIG_BYTE I8042_COMMAND_REG ;;
    byte <- await (do_return (- ETIME)) ;;
    let dual_channel_test := if Z.testbit byte 5 then false else true in
    outb I8042_DISABLE_SECOND_PS2_PORT I8042_COMMAND_REG ;;
    ret dual_channel_test
  else ret dual_channel_test.

(** "This code performs interface check" *)
Definition interface_check (dual_channel_test : bool) : M unit :=
  outb I8042_FIRST_PORT_INTERFACE_TEST I8042_COMMAND_REG ;;
  byte <- await (do_return (- ETIME)) ;;
  when (byte =? 0x00) (set_first_port 1) ;;
  when dual_channel_test
    (outb I8042_SECOND_PORT_INTERFACE_TEST I8042_COMMAND_REG ;;
     byte <- await (do_return (- ETIME)) ;;
     when (byte =? 0x00) (set_second_port 1)) ;;
  fp <- get first_port ;;
  sp <- get second_port ;;
  when (negb (truthy fp) && negb (truthy sp)) (do_return (- EINVAL)).

(** "This code enables ports" *)
Definition enable_ports : M unit :=
  outb I8042_READ_CONFIG_BYTE I8042_COMMAND_REG ;;
  byte <- await (do_return (- ETIME)) ;;
  fp <- get first_port ;;
  byte <- (if truthy fp
           then outb I8042_ENABLE_FIRST_PS2_PORT I8042_COMMAND_REG ;; ret (Z.setbit byte 0)
           else ret byte) ;;
  sp <- get second_port ;;
  byte <- (if truthy sp
           then outb I8042_ENABLE_SECOND_PS2_PORT I8042_COMMAND_REG ;; ret (Z.setbit byte 1)
           else ret byte) ;;
  let byte := Z.setbit byte 6 in
  outb byte I8042_DATA_REG ;;
  outb I8042_WRITE_CONFIG_BYTE I8042_COMMAND_REG.

(** "This code resets devices" *)
Definition reset_devices : M unit :=
  r <- write_dev1 I8042_RESET 250 ;;
  when (r <? 0) (do_return (- ETIME)) ;;
  _ <- await (do_return (- ETIME)) ;;
  r <- write_dev2 I8042_RESET 250 ;;
  when (r <? 0) (do_return (- ETIME)) ;;
  _ <- await (do_return (- ETIME)) ;;
  ret tt.

(** [first_port = UNDEFINED; goto first_port_fail;] *)
Definition abandon_first {A : Type} : M A :=
  set_first_port UNDEFINED ;; goto first_port_fail.

(** "Detecting device on first port" *)
Definition detect_first : M unit :=
  fp <- get first_port ;;
  when (truthy fp)
    (r <- write_dev1 I8042_DISABLE_SCANNING 250 ;;
     when (r <? 0) abandon_first ;;
     _ <- await abandon_first ;;
     r <- write_dev1 I8042_IDENTIFY 250 ;;
     when (r <? 0) abandon_first ;;
     byte <- await abandon_first ;;
     if byte =? 0xFA then
       byte <- await abandon_first ;;
       if byte =? 0x00 then set_first_port MOUSE
       else if byte =? 0x03 then set_first_port MOUSE
       else if byte =? 0x04 then set_first_port MOUSE
       else if byte =? 0xAB then
         byte2 <- await abandon_first ;;
         if (byte =? 0xAB) && ((byte2 =? 0x41) || (byte2 =? 0xC1)) then set_first_port KEYBOARD
         else if (byte =? 0xAB) && (byte2 =? 0x83) then set_first_port KEYBOARD
         else set_first_port UNDEFINED
       else set_first_port UNDEFINED
     else set_first_port UNDEFINED).

(** [second_port = UNDEFINED; goto second_port_fail;] *)
Definition abandon_second {A : Type} : M A :=
  set_second_port UNDEFINED ;; goto second_port_fail.

(** "Detecting device on second port" *)
Definition detect_second : M unit :=
  sp <- get second_port ;;
  when (truthy sp)
    (r <- write_dev2 I8042_DISABLE_SCANNING 250 ;;
     when (r <? 0) abandon_second ;;
     _ <- await abandon_second ;;
     r <- write_dev2 I8042_IDENTIFY 250 ;;
     when (r <? 0) abandon_second ;;
     byte <- await abandon_second ;;
     if byte =? 0xFA then
       byte <- await abandon_second ;;
       if byte =? 0x00 then set_second_port MOUSE
       else if byte =? 0x03 then set_second_port MOUSE
       else if byte =? 0x04 then set_second_port MOUSE
       else if byte =? 0xAB then
         byte2 <- await abandon_second ;;
         if (byte2 =? 0x41) || (byte2 =? 0xC1) then set_second_port KEYBOARD
         else set_second_port UNDEFINED
       else set_second_port UNDEFINED
     else set_second_port UNDEFINED).

(** [if (first_port) { dev1 = input_allocate_device(); ... }].  Filling in
    the name and the capability bitmaps of the device touches neither the
    ports nor the kernel and is left out. *)
Definition register_first : M unit :=
  fp <- get first_port ;;
  when (truthy fp)
    (dev1 <- input_allocate_device Dev1 ;;
     when (negb dev1) (do_return (- ENOMEM)) ;;
     error <- input_register_device Dev1 ;;
     when (truthy error) (goto (err_dev1_free error)) ;;
     r <- request_irq I8042_IRQ1 Dev1 ;;
     when (truthy r) (goto (err_dev1_unreg (- EBUSY))) ;;
     r <- write_dev1 I8042_KBD_ENABLE 250 ;;
     when (r <? 0) (goto (err_irq1_free (- ETIME))) ;;
     _ <- await (goto (err_irq1_free (- ETIME))) ;;
     ret tt).

(** [if (first_port) goto a; else goto b;] *)
Definition goto_by_first_port {A : Type} (a b : label) : M A :=
  fp <- get first_port ;;
  if truthy fp then goto a else goto b.

Definition register_second : M unit :=
  sp <- get second_port ;;
  when (truthy sp)
    (dev2 <- input_allocate_device Dev2 ;;
     when (negb dev2)
       (fp <- get first_port ;;
        if truthy fp then goto (err_irq1_free (- ENOMEM)) else do_return (- ENOMEM)) ;;
     error <- input_register_device Dev2 ;;
     when (truthy error)
       (goto_by_first_port (err_first_dev2_free error) (err_second_dev2_free error)) ;;
     r <- request_irq I8042_IRQ12 Dev2 ;;
     when (truthy r)
       (goto_by_first_port (err_first_dev2_unreg (- EBUSY)) (err_second_dev2_unreg (- EBUSY))) ;;
     r <- write_dev2 I8042_KBD_ENABLE 250 ;;
     when (r <? 0)
       (goto_by_first_port (err_first_irq12_free (- ETIME)) (err_second_irq12_free (- ETIME))) ;;
     _ <- await
       (goto_by_first_port (err_first_irq12_free (- ETIME)) (err_second_irq12_free (- ETIME))) ;;
     ret tt).

(** Lines 207-329: from disabling the ports to resetting the devices. *)
Definition configure_controller : M unit :=
  disable_ports ;;
  flush_output_buffer ;;
  dual_channel_test <- set_config_byte ;;
  self_test ;;
  dual_channel_test <- probe_dual_channel dual_channel_test ;;
  interface_check dual_channel_test ;;
  enable_ports ;;
  reset_devices.

(** Lines 331-457: the two detection blocks, each closed by its label. *)
Definition detect_devices : M unit :=
  upto is_first_port_fail detect_first ;;
  upto is_second_port_fail detect_second.

(** Lines 459-539: devices, interrupt lines, scanning. *)
Definition register_devices : M unit :=
  register_first ;;
  register_second.

(** The statements of [init_module] up to its [return 0]. *)
Definition init_module_body : M unit :=
  configure_controller ;;
  detect_devices ;;
  register_devices.

(** The cleanup code after [return 0], one definition per label; a label
    without a [return] of its own falls through to the next one. *)
Definition from_err_dev1_unreg (error : Z) : M Z :=
  input_unregister_device Dev1 ;; ret error.

Definition from_err_irq1_free (error : Z) : M Z :=
  free_irq I8042_IRQ1 Dev1 ;; from_err_dev1_unreg error.

Definition from_err_first_dev2_unreg (error : Z) : M Z :=
  input_unregister_device Dev2 ;; from_err_irq1_free error.

Definition from_err_first_irq12_free (error : Z) : M Z :=
  free_irq I8042_IRQ12 Dev2 ;; from_err_first_dev2_unreg error.

Definition from_err_second_dev2_unreg (error : Z) : M Z :=
  input_unregister_device Dev2 ;; ret error.

Definition from_err_second_irq12_free (error : Z) : M Z :=
  free_irq I8042_IRQ12 Dev2 ;; from_err_second_dev2_unreg error.

Definition from_err_dev1_free (error : Z) : M Z :=
  input_free_device Dev1 ;; ret error.

Definition from_err_first_dev2_free (error : Z) : M Z :=
  input_free_device Dev2 ;;
  free_irq I8042_IRQ1 Dev1 ;;
  input_unregister_device Dev1 ;;
  ret error.

Definition from_err_second_dev2_free (error : Z) : M Z :=
  input_free_device Dev2 ;; ret error.

(** Where a [goto] lands.  The two labels inside the body are resolved by
    [upto] and never reach this point. *)
Definition landing (l : label) : M Z :=
  match l with
  | first_port_fail | second_port_fail => ret 0
  | err_first_irq12_free e => from_err_first_irq12_free e
  | err_first_dev2_unreg e => from_err_first_dev2_unreg e
  | err_irq1_free e => from_err_irq1_free e
  | err_dev1_unreg e => from_err_dev1_unreg e
  | err_second_irq12_free e => from_err_second_irq12_free e
  | err_second_dev2_unreg e => from_err_second_dev2_unreg e
  | err_dev1_free e => from_err_dev1_free e
  | err_first_dev2_free e => from_err_first_dev2_free e
  | err_second_dev2_free e => from_err_second_dev2_free e
  end.

(** How [init_module] ends: [return 0] after the body, or the [return] that
    ended the body early, or the cleanup code a [goto] landed in. *)
Definition leave (r : outcome unit * world) : Z * world :=
  match r with
  | (Normal _, w') => (0, w')
  | (Return code, w') => (code, w')
  | (Goto l, w') =>
      match landing l w' with
      | (Normal code, w'') => (code, w'')
      | (Return code, w'') => (code, w'')
      | (Goto _, w'') => (0, w'')
      end
  end.

Definition init_module (w : world) : Z * world := leave (init_module_body w).

(** ** What an invocation of the handler finds in the data register *)

(** [data_byte w k]: the byte the [k]-th next [inb] of the data register
    returns in [w] ([k = 0] for the very next one). *)
Definition data_byte (w : world) (k : nat) : Z :=
  data_in (env w) (k + n_data w) mod 256.

(** What one run of a table loop reports: the pure content of
    [scan_tables], used to reason about it. *)
Fixpoint lookup (n i : nat) (scancode : Z) (press release : list Z)
    (ks : list key) : option (key * Z) :=
  match n with
  | O => None
  | S n' =>
      if scancode =? nth i press 0 then Some (nth i ks KEY_RESERVED, 1)
      else if scancode =? nth i release 0 then Some (nth i ks KEY_RESERVED, 0)
      else lookup n' (S i) scancode press release ks
  end.

Definition report (dev : input_dev) (r : option (key * Z)) (w : world) : world :=
  match r with
  | Some (k, v) => log (InputReportKey dev k v) w
  | None => w
  end.

(** ** Environments to run the driver in *)

(** A controller that always has a byte ready and room for one (status
    register constantly 0x01), delivering [data] in order, on a machine
    where two polls fit into a wait; the kernel grants every request. *)
Definition steady (data : list Z) : environment :=
  mkEnv (fun _ => 0x01) (fun n => nth n data 0) (fun _ => 2%nat)
        (fun _ => true) (fun _ => 0) (fun _ => 0).

(** A controller like [steady] whose status register follows [status]. *)
Definition paced (status : nat -> Z) (data : list Z) : environment :=
  mkEnv status (fun n => nth n data 0) (fun _ => 2%nat)
        (fun _ => true) (fun _ => 0) (fun _ => 0).

(** A machine like [steady] on which registering the device of the second
    port fails with [e]. *)
Definition refusing_second (data : list Z) (e : Z) : environment :=
  mkEnv (fun _ => 0x01) (fun n => nth n data 0) (fun _ => 2%nat)
        (fun _ => true) (fun d => match d with Dev1 => 0 | Dev2 => e end) (fun _ => 0).

(** A dual-channel controller with a keyboard on each port: the bytes it
    delivers during bring-up, from the flush to the acknowledgement of the
    first port's enable command. *)
Definition two_keyboards : list Z :=
  [0x00; 0x20; 0x20; 0x55; 0x00; 0x00; 0x00; 0x20; 0xFA; 0xFA;
   0xFA; 0xFA; 0xAB; 0x83; 0xFA; 0xFA; 0xAB; 0x41; 0xFA].

(** A single-channel controller with a device on its first port only:
    nine polls find the status register ready, then nothing answers any
    more. *)
Definition single_channel : environment :=
  paced (fun n => if (n <? 9)%nat then 0x01 else 0x00)
        [0x00; 0x45; 0x00; 0x55; 0x00; 0x45; 0xFA].

(** The world at the start of device detection, both ports having passed
    their interface test. *)
Definition both_usable (e : environment) : world := mkWorld e 0 0 [] 1 1.

(** The world a computation leaves behind. *)
Definition after {A : Type} (m : M A) (w : world) : world := snd (m w).

(** ** Vocabulary of the identification step *)

(** The exchange every detection block starts with, over the port that
    [write_dev] addresses: scanning is switched off and answered, the
    identify command is acknowledged by 0xFA, and the device then sends
    [id]; [w'] is the world after that byte. *)
Definition identify_reply (write_dev : Z -> Z -> M Z) (w : world) (id : Z) (w' : world) : Prop :=
  exists (w1 w2 w3 w4 : world) (b0 : Z),
    write_dev I8042_DISABLE_SCANNING 250 w = (Normal 0, w1) /\
    read_reg 250 w1 = (Normal (Some b0), w2) /\
    write_dev I8042_IDENTIFY 250 w2 = (Normal 0, w3) /\
    read_reg 250 w3 = (Normal (Some 0xFA), w4) /\
    read_reg 250 w4 = (Normal (Some id), w').

(** Every step of the identification went through and the answer is one
    the block recognises: a mouse id, or 0xAB followed by one of
    [keyboard_ids]. *)
Definition identified (write_dev : Z -> Z -> M Z) (keyboard_ids : list Z) (w : world) : Prop :=
  exists (id : Z) (w5 : world),
    identify_reply write_dev w id w5 /\
    (In id [0x00; 0x03; 0x04] \/
     (id = 0xAB /\
      exists (b2 : Z) (w6 : world),
        read_reg 250 w5 = (Normal (Some b2), w6) /\ In b2 keyboard_ids)).

(** ** Vocabulary of resource handling *)

(** The calls into the kernel among the actions of a trace. *)
Definition is_kernel_call (a : action) : bool :=
  match a with
  | Outb _ _ | InputReportKey _ _ _ | InputSync _ => false
  | _ => true
  end.

Definition kernel_calls (tr : list action) : list action := filter is_kernel_call tr.

(** What the driver holds: a device not yet registered, a registered
    device, a handler bound to an interrupt line. *)
Inductive resource : Set :=
| Allocated (d : input_dev)
| Registered (d : input_dev)
| Bound (irq : Z) (d : input_dev).

Definition input_dev_eqb (a b : input_dev) : bool :=
  match a, b with
  | Dev1, Dev1 | Dev2, Dev2 => true
  | _, _ => false
  end.

(** The call that gives a resource back. *)
Definition release (r : resource) : action :=
  match r with
  | Allocated d => InputFreeDevice d
  | Registered d => InputUnregisterDevice d
  | Bound irq d => FreeIrq irq d
  end.

(** The resources held after a sequence of successful or failed
    acquisitions, the most recent first.  Registering turns the allocated
    device on top into a registered one. *)
Fixpoint acquire (held : list resource) (calls : list action) : list resource :=
  match calls with
  | [] => held
  | InputAllocateDevice d true :: rest => acquire (Allocated d :: held) rest
  | InputRegisterDevice d r :: rest =>
      if r =? 0 then
        match held with
        | Allocated d' :: below =>
            if input_dev_eqb d d' then acquire (Registered d :: below) rest
            else acquire held rest
        | _ => acquire held rest
        end
      else acquire held rest
  | RequestIrq irq d r :: rest =>
      if r =? 0 then acquire (Bound irq d :: held) rest else acquire held rest
  | _ :: rest => acquire held rest
  end.

(** ** Vocabulary of the proofs *)

(** What a primitive leaves alone: oracles and globals. *)
Definition frame (w w' : world) : Prop :=
  env w' = env w /\ first_port w' = first_port w /\ second_port w' = second_port w.

(** An outcome of the body that is not a jump to one of its two inner
    labels: control is still in the body, or has left it by [return] or
    towards the cleanup code. *)
Definition in_body {A : Type} (r : outcome A * world) : Prop :=
  match fst r with
  | Goto first_port_fail | Goto second_port_fail => False
  | _ => True
  end.

(** ** Module unload *)

(** [cleanup_module]: lines 575-585. *)
Definition cleanup_module : M unit :=
  fp <- get first_port ;;
  when (truthy fp)
    (free_irq I8042_IRQ1 Dev1 ;;
     input_unregister_device Dev1) ;;
  sp <- get second_port ;;
  when (truthy sp)
    (free_irq I8042_IRQ12 Dev2 ;;
     input_unregister_device Dev2).

(** ** Vocabulary of the polling loops *)

(** [status_byte w k]: the byte the [k]-th next [inb] of the status
    register returns in [w]. *)
Definition status_byte (w : world) (k : nat) : Z :=
  status_in (env w) (k + n_status w) mod 256.

(** The world after [k] reads of the status register. *)
Definition advance_status (k : nat) (w : world) : world :=
  mkWorld (env w) (k + n_status w) (n_data w) (trace w) (first_port w) (second_port w).

(** ** Vocabulary of invariants *)

(** A computation keeps a relation between the world it starts in and the
    world it ends in, however it ends. *)
Definition keeps {A : Type} (R : world -> world -> Prop) (m : M A) : Prop :=
  forall w, R w (snd (m w)).

(** Nothing is asked of the kernel and the oracles stay the same. *)
Definition quiet (w w' : world) : Prop :=
  env w' = env w /\ kernel_calls (trace w') = kernel_calls (trace w).

(** Both globals hold one of the three device classes. *)
Definition classified (w : world) : Prop :=
  (first_port w = UNDEFINED \/ first_port w = KEYBOARD \/ first_port w = MOUSE) /\
  (second_port w = UNDEFINED \/ second_port w = KEYBOARD \/ second_port w = MOUSE).

(** Whatever holds a device class before still holds one after. *)
Definition stays_classified (w w' : world) : Prop := classified w -> classified w'.

(** A computation that leaves the oracles alone and reads the status
    register at most as often as [k] waits of 250 ms allow. *)
Definition within (k : nat) {A : Type} (m : M A) : Prop :=
  forall w,
    env (snd (m w)) = env w /\
    (n_status (snd (m w)) <= n_status w + k * polls (env w) 250)%nat.

(** A computation that ends normally or by [return] of a code in [codes],
    never by [goto]. *)
Definition exits {A : Type} (codes : list Z) (r : outcome A * world) : Prop :=
  match fst r with
  | Normal _ => True
  | Return c => In c codes
  | Goto _ => False
  end.

(** An action that is a report or a sync on the sink [dev]. *)
Definition on_sink (dev : input_dev) (a : action) : bool :=
  match a with
  | InputReportKey d _ _ | InputSync d => input_dev_eqb d dev
  | _ => false
  end.

(** ** Vocabulary of resource tracking *)

Definition resource_eqb (a b : resource) : bool :=
  match a, b with
  | Allocated d, Allocated d' => input_dev_eqb d d'
  | Registered d, Registered d' => input_dev_eqb d d'
  | Bound i d, Bound i' d' => (i =? i') && input_dev_eqb d d'
  | _, _ => false
  end.

(** Gives back the resource on top of the stack; [None] if something else,
    or nothing, is on top. *)
Definition pop (r : resource) (held : list resource) : option (list resource) :=
  match held with
  | top :: below => if resource_eqb r top then Some below else None
  | [] => None
  end.

(** Gives back a resource wherever it is in the stack; [None] if it is not
    held. *)
Fixpoint drop (r : resource) (held : list resource) : option (list resource) :=
  match held with
  | [] => None
  | h :: below =>
      if resource_eqb r h then Some below
      else match drop r below with
           | Some rest => Some (h :: rest)
           | None => None
           end
  end.

(** The resources held after a sequence of kernel calls, the most recent
    first, every release being checked by [give_back]: [None] as soon as a
    release is refused, or a device is registered that is not the allocated
    device on top. *)
Fixpoint track (give_back : resource -> list resource -> option (list resource))
    (held : list resource) (calls : list action) : option (list resource) :=
  match calls with
  | [] => Some held
  | InputAllocateDevice d ok :: rest =>
      track give_back (if ok then Allocated d :: held else held) rest
  | InputRegisterDevice d r :: rest =>
      if r =? 0 then
        match pop (Allocated d) held with
        | Some below => track give_back (Registered d :: below) rest
        | None => None
        end
      else track give_back held rest
  | RequestIrq irq d r :: rest =>
      track give_back (if r =? 0 then Bound irq d :: held else held) rest
  | FreeIrq irq d :: rest =>
      match give_back (Bound irq d) held with
      | Some held' => track give_back held' rest
      | None => None
      end
  | InputUnregisterDevice d :: rest =>
      match give_back (Registered d) held with
      | Some held' => track give_back held' rest
      | None => None
      end
  | InputFreeDevice d :: rest =>
      match give_back (Allocated d) held with
      | Some held' => track give_back held' rest
      | None => None
      end
  | _ :: rest => track give_back held rest
  end.

(** The kernel calls that set a port up. *)
Definition setup_calls (class irq : Z) (d : input_dev) : list action :=
  if truthy class
  then [InputAllocateDevice d true; InputRegisterDevice d 0; RequestIrq irq d 0]
  else [].

(** What a port that was set up holds. *)
Definition setup_held (class irq : Z) (d : input_dev) : list resource :=
  if truthy class then [Bound irq d; Registered d] else [].

(** ** More environments *)

(** A machine like [steady] on which interrupt line 12 cannot be had. *)
Definition line12_busy (data : list Z) : environment :=
  mkEnv (fun _ => 0x01) (fun n => nth n data 0) (fun _ => 2%nat)
        (fun _ => true) (fun _ => 0) (fun irq => if irq =? I8042_IRQ12 then - EBUSY else 0).

(** A dual-channel controller whose two devices answer the identify
    command with 0x00 instead of the acknowledgement. *)
Definition two_strangers : list Z :=
  [0x00; 0x20; 0x20; 0x55; 0x00; 0x00; 0x00; 0x20; 0xFA; 0xFA;
   0xFA; 0x00; 0xFA; 0x00].
(** ** Basic facts about the monad and the primitives *)

Lemma bind_Normal {A B : Type} (m : M A) (k : A -> M B) (w w' : world) (a : A) :
  m w = (Normal a, w') -> bind m k w = k a w'.
Proof. intros E. unfold bind. rewrite E. reflexivity. Qed.

Lemma bind_Goto {A B : Type} (m : M A) (k : A -> M B) (w w' : world) (l : label) :
  m w = (Goto l, w') -> bind m k w = (Goto l, w').
Proof. intros E. unfold bind. rewrite E. reflexivity. Qed.

Lemma bind_Return {A B : Type} (m : M A) (k : A -> M B) (w w' : world) (c : Z) :
  m w = (Return c, w') -> bind m k w = (Return c, w').
Proof. intros E. unfold bind. rewrite E. reflexivity. Qed.

Lemma scan_tables_lookup (n : nat) :
  forall i scancode press release ks dev w,
    scan_tables n i scancode press release ks dev w =
    (Normal tt, report dev (lookup n i scancode press release ks) w).
Proof.
  induction n as [|n IH]; intros i sc p r ks dev w; simpl.
  - reflexivity.
  - destruct (sc =? nth i p 0); [reflexivity|].
    destruct (sc =? nth i r 0); [reflexivity|].
    apply IH.
Qed.

Lemma lookup_unmatched (n : nat) :
  forall i scancode press release ks,
    (forall j, (i <= j < i + n)%nat ->
               nth j press 0 <> scancode /\ nth j release 0 <> scancode) ->
    lookup n i scancode press release ks = None.
Proof.
  induction n as [|n IH]; intros i sc p r ks H; simpl; [reflexivity|].
  destruct (H i ltac:(lia)) as [Hp Hr].
  destruct (Z.eqb_spec sc (nth i p 0)) as [e|_]; [congruence|].
  destruct (Z.eqb_spec sc (nth i r 0)) as [e|_]; [congruence|].
  apply IH. intros j Hj. apply H. lia.
Qed.

Lemma lookup_not_In (n : nat) (scancode : Z) (press release : list Z) (ks : list key) :
  (n <= length press)%nat -> (n <= length release)%nat ->
  ~ In scancode press -> ~ In scancode release ->
  lookup n 0 scancode press release ks = None.
Proof.
  intros Lp Lr Np Nr. apply lookup_unmatched. intros j Hj. split; intros E.
  - apply Np. rewrite <- E. apply nth_In. lia.
  - apply Nr. rewrite <- E. apply nth_In. lia.
Qed.

(** Index-aligned tables: the loop over the one-byte tables finds the entry
    at the index of the byte, in the press table or in the release table. *)
Lemma lookup_press (i : nat) :
  (i < 85)%nat ->
  lookup 85 0 (nth i press_scancodes 0) press_scancodes release_scancodes keys
  = Some (nth i keys KEY_RESERVED, 1).
Proof.
  intros H. do 85 (destruct i as [|i]; [vm_compute; reflexivity|]). lia.
Qed.

Lemma lookup_release (i : nat) :
  (i < 85)%nat ->
  lookup 85 0 (nth i release_scancodes 0) press_scancodes release_scancodes keys
  = Some (nth i keys KEY_RESERVED, 0).
Proof.
  intros H. do 85 (destruct i as [|i]; [vm_compute; reflexivity|]). lia.
Qed.

Lemma lookup_esc_press (i : nat) :
  (i < 15)%nat ->
  lookup 15 0 (nth i esc_press_scancodes 0)
         esc_press_scancodes esc_release_scancodes esc_keys
  = Some (nth i esc_keys KEY_RESERVED, 1).
Proof.
  intros H. do 15 (destruct i as [|i]; [vm_compute; reflexivity|]). lia.
Qed.

Lemma lookup_esc_release (i : nat) :
  (i < 15)%nat ->
  lookup 15 0 (nth i esc_release_scancodes 0)
         esc_press_scancodes esc_release_scancodes esc_keys
  = Some (nth i esc_keys KEY_RESERVED, 0).
Proof.
  intros H. do 15 (destruct i as [|i]; [vm_compute; reflexivity|]). lia.
Qed.

Arguments scan_tables : simpl never.
Arguments lookup : simpl never.

(** The handler on interrupt line 1, unfolded once: a byte other than 0xE0
    goes through the one-byte tables. *)
Lemma handler_plain (dev : input_dev) (w : world) :
  data_byte w 0 <> 0xE0 ->
  i8042_handler I8042_IRQ1 dev w =
  (Normal IRQ_HANDLED,
   log (InputSync dev)
     (report dev (lookup 85 0 (data_byte w 0) press_scancodes release_scancodes keys)
        (next_data w))).
Proof.
  intros H. unfold i8042_handler, bind, inb, data_byte in *. simpl in *.
  destruct (Z.eqb_spec (data_in (env w) (n_data w) mod 256) 224) as [e|_]; [contradiction|].
  simpl. rewrite scan_tables_lookup. reflexivity.
Qed.

(** The handler on interrupt line 1 when it reads 0xE0: it reads a second
    byte at once and takes it through the escape tables. *)
Lemma handler_escape (dev : input_dev) (w : world) :
  data_byte w 0 = 0xE0 ->
  i8042_handler I8042_IRQ1 dev w =
  (Normal IRQ_HANDLED,
   log (InputSync dev)
     (report dev
        (lookup 15 0 (data_byte w 1) esc_press_scancodes esc_release_scancodes esc_keys)
        (next_data (next_data w)))).
Proof.
  intros H. unfold i8042_handler, bind, inb, data_byte in *. simpl in *.
  rewrite H. simpl. rewrite scan_tables_lookup. reflexivity.
Qed.

(** On any other line the handler only reads the byte and syncs. *)
Lemma handler_other_line (irq : Z) (dev : input_dev) (w : world) :
  irq <> I8042_IRQ1 ->
  i8042_handler irq dev w = (Normal IRQ_HANDLED, log (InputSync dev) (next_data w)).
Proof.
  intros H. unfold i8042_handler, bind, inb. simpl.
  destruct (Z.eqb_spec irq I8042_IRQ1) as [e|_]; [contradiction|].
  destruct (irq =? I8042_IRQ12); reflexivity.
Qed.

(** ** The scancode decoder *)

Lemma press_not_escape (i : nat) :
  (i < 85)%nat -> nth i press_scancodes 0 <> 0xE0.
Proof.
  intros H. do 85 (destruct i as [|i]; [vm_compute; discriminate|]). lia.
Qed.

Lemma release_not_escape (i : nat) :
  (i < 85)%nat -> nth i release_scancodes 0 <> 0xE0.
Proof.
  intros H. do 85 (destruct i as [|i]; [vm_compute; discriminate|]). lia.
Qed.

Lemma trace_report (dev : input_dev) (r : option (key * Z)) (w : world) :
  trace (report dev r w) =
  trace w ++ match r with
             | Some (k, v) => [InputReportKey dev k v]
             | None => []
             end.
Proof.
  destruct r as [[k v]|]; simpl; [reflexivity | now rewrite app_nil_r].
Qed.

(** C1. On the keyboard line, the byte at index [i] of the one-byte press
    table makes the handler report exactly [keys[i]] pressed, and the byte
    at index [i] of the release table exactly [keys[i]] released, each
    followed by the sync; the handler has consumed that one byte only, so
    nothing is pending for the next invocation. *)
Theorem one_byte_scancode_decoded (i : nat) (dev : input_dev) (w : world) :
  (i < 85)%nat ->
  (data_byte w 0 = nth i press_scancodes 0 ->
   i8042_handler I8042_IRQ1 dev w =
   (Normal IRQ_HANDLED,
    log (InputSync dev)
      (log (InputReportKey dev (nth i keys KEY_RESERVED) 1) (next_data w))))
  /\
  (data_byte w 0 = nth i release_scancodes 0 ->
   i8042_handler I8042_IRQ1 dev w =
   (Normal IRQ_HANDLED,
    log (InputSync dev)
      (log (InputReportKey dev (nth i keys KEY_RESERVED) 0) (next_data w)))).
Proof.
  intros Hi. split; intros Hb.
  - rewrite handler_plain by (rewrite Hb; now apply press_not_escape).
    rewrite Hb, lookup_press by assumption. reflexivity.
  - rewrite handler_plain by (rewrite Hb; now apply release_not_escape).
    rewrite Hb, lookup_release by assumption. reflexivity.
Qed.

Lemma one_byte_scancode_decoded_witness :
  (27 < 85)%nat /\
  data_byte (fresh (steady [0x1C])) 0 = nth 27 press_scancodes 0 /\
  i8042_handler I8042_IRQ1 Dev1 (fresh (steady [0x1C])) =
  (Normal IRQ_HANDLED,
   log (InputSync Dev1)
     (log (InputReportKey Dev1 KEY_ENTER 1) (next_data (fresh (steady [0x1C]))))).
Proof.
  split; [lia|]. split; [reflexivity|].
  apply (proj1 (one_byte_scancode_decoded 27 Dev1 (fresh (steady [0x1C])) ltac:(lia))).
  reflexivity.
Defined.

(** The escape branch, run by run.  When the handler reads 0xE0 on the
    keyboard line it reports nothing for that byte, reads the data register a
    second time in the same invocation, without polling the status register,
    and looks that second byte up in the escape tables only: index [i] of
    the escaped press (release) table reports [esc_keys[i]] pressed
    (released), any other byte reports nothing, whatever the one-byte tables
    hold for it.  One sync follows and two reads are used up. *)
Lemma escape_sequence_decoded (dev : input_dev) (w : world) :
  data_byte w 0 = 0xE0 ->
  (forall i, (i < 15)%nat ->
     data_byte w 1 = nth i esc_press_scancodes 0 ->
     i8042_handler I8042_IRQ1 dev w =
     (Normal IRQ_HANDLED,
      log (InputSync dev)
        (log (InputReportKey dev (nth i esc_keys KEY_RESERVED) 1)
           (next_data (next_data w)))))
  /\
  (forall i, (i < 15)%nat ->
     data_byte w 1 = nth i esc_release_scancodes 0 ->
     i8042_handler I8042_IRQ1 dev w =
     (Normal IRQ_HANDLED,
      log (InputSync dev)
        (log (InputReportKey dev (nth i esc_keys KEY_RESERVED) 0)
           (next_data (next_data w)))))
  /\
  (~ In (data_byte w 1) esc_press_scancodes ->
   ~ In (data_byte w 1) esc_release_scancodes ->
   i8042_handler I8042_IRQ1 dev w =
   (Normal IRQ_HANDLED, log (InputSync dev) (next_data (next_data w)))).
Proof.
  intros He. rewrite (handler_escape dev w He). repeat split.
  - intros i Hi Hb. rewrite Hb, lookup_esc_press by assumption. reflexivity.
  - intros i Hi Hb. rewrite Hb, lookup_esc_release by assumption. reflexivity.
  - intros Np Nr. rewrite lookup_not_In; simpl; auto.
Qed.

(** 0xE0 0x1C is keypad Enter, although 0x1C alone is Enter; 0xE0 0x1E is
    nothing, although 0x1E alone is A. *)
Lemma escape_sequence_decoded_witness :
  data_byte (fresh (steady [0xE0; 0x1C])) 0 = 0xE0 /\
  i8042_handler I8042_IRQ1 Dev1 (fresh (steady [0xE0; 0x1C])) =
  (Normal IRQ_HANDLED,
   log (InputSync Dev1)
     (log (InputReportKey Dev1 KEY_KPENTER 1)
        (next_data (next_data (fresh (steady [0xE0; 0x1C])))))) /\
  i8042_handler I8042_IRQ1 Dev1 (fresh (steady [0xE0; 0x1E])) =
  (Normal IRQ_HANDLED,
   log (InputSync Dev1) (next_data (next_data (fresh (steady [0xE0; 0x1E]))))).
Proof.
  split; [reflexivity|]. split.
  - apply (proj1 (escape_sequence_decoded Dev1 (fresh (steady [0xE0; 0x1C])) eq_refl)
             0%nat ltac:(lia)).
    reflexivity.
  - apply (proj2 (proj2 (escape_sequence_decoded Dev1 (fresh (steady [0xE0; 0x1E])) eq_refl)));
      vm_compute; intuition discriminate.
Defined.

(** C2, where the byte after 0xE0 comes with the next interrupt.  The
    handler runs once per interrupt and keeps nothing from one run to the
    next; its second read of the data register is not preceded by a poll, so
    it sees what the register holds at that moment.  Here the register still
    holds 0xE0 when the first run reads it again, and 0x48 arrives with the
    second interrupt: the first run reports nothing, and the second run takes
    0x48 through the one-byte tables and reports [KEY_KP8], although 0x48 is
    the escaped code of [KEY_UP]. *)
Lemma escaped_byte_on_next_interrupt_decoded_plain :
  trace (snd (i8042_handler I8042_IRQ1 Dev1 (fresh (steady [0xE0; 0xE0; 0x48])))) =
  [InputSync Dev1] /\
  n_data (snd (i8042_handler I8042_IRQ1 Dev1 (fresh (steady [0xE0; 0xE0; 0x48])))) = 2%nat /\
  trace (snd ((i8042_handler I8042_IRQ1 Dev1 ;; i8042_handler I8042_IRQ1 Dev1)
                (fresh (steady [0xE0; 0xE0; 0x48])))) =
  [InputSync Dev1; InputReportKey Dev1 KEY_KP8 1; InputSync Dev1] /\
  nth 6 esc_press_scancodes 0 = 0x48 /\
  nth 6 esc_keys KEY_RESERVED = KEY_UP.
Proof. repeat split; vm_compute; reflexivity. Qed.



(** C10. On interrupt line 12, and on any line other than 1, the handler
    reads the byte and sends the sync of its device and nothing else: no key
    is ever reported for the second port, whatever its classification. *)
Theorem second_line_never_decodes (dev : input_dev) (w : world) :
  i8042_handler I8042_IRQ12 dev w =
  (Normal IRQ_HANDLED, log (InputSync dev) (next_data w))
  /\
  (forall irq, irq <> I8042_IRQ1 ->
     i8042_handler irq dev w = (Normal IRQ_HANDLED, log (InputSync dev) (next_data w))).
Proof.
  split.
  - apply handler_other_line. discriminate.
  - intros irq H. now apply handler_other_line.
Qed.

(** ** Bring-up: the primitives *)

Arguments read_reg : simpl never.
Arguments write_dev1 : simpl never.
Arguments write_dev2 : simpl never.

Lemma bind_get {A B : Type} (f : world -> A) (k : A -> M B) (w : world) :
  bind (get f) k w = k (f w) w.
Proof. reflexivity. Qed.

Lemma bind_outb {B : Type} (v p : Z) (k : unit -> M B) (w : world) :
  bind (outb v p) k w = k tt (log (Outb v p) w).
Proof. reflexivity. Qed.

Lemma frame_refl (w : world) : frame w w.
Proof. repeat split. Qed.

Lemma frame_trans (a b c : world) : frame a b -> frame b c -> frame a c.
Proof. unfold frame. intuition congruence. Qed.

Lemma read_reg_loop_total (n : nat) :
  forall w, exists r w',
    read_reg_loop n w = (Normal r, w') /\ frame w w' /\ trace w' = trace w.
Proof.
  induction n as [|n IH]; intros w; simpl.
  - exists None, w. repeat split.
  - unfold bind, inb. simpl.
    match goal with |- context [if ?c then _ else _] => destruct c end.
    + eexists _, _. repeat split.
    + destruct (IH (next_status w)) as (r & w' & E & F & T).
      exists r, w'. rewrite E. repeat split; apply F || exact T.
Qed.

Lemma read_reg_total (t : Z) (w : world) :
  exists r w', read_reg t w = (Normal r, w') /\ frame w w' /\ trace w' = trace w.
Proof. apply read_reg_loop_total. Qed.

Lemma write_loop_total (n : nat) (byte : Z) :
  forall w, exists r w',
    write_loop n byte w = (Normal r, w') /\ frame w w' /\
    ((r = 0 /\ trace w' = trace w ++ [Outb byte I8042_DATA_REG]) \/
     (r = -1 /\ trace w' = trace w)).
Proof.
  induction n as [|n IH]; intros w; simpl.
  - exists (-1), w. repeat split. now right.
  - unfold bind, inb. simpl.
    match goal with |- context [if ?c then _ else _] => destruct c end.
    + eexists _, _. repeat split. now left.
    + destruct (IH (next_status w)) as (r & w' & E & F & T).
      exists r, w'. rewrite E. repeat split; apply F || exact T.
Qed.

Lemma write_dev1_total (byte t : Z) (w : world) :
  exists r w',
    write_dev1 byte t w = (Normal r, w') /\ frame w w' /\
    ((r = 0 /\ trace w' = trace w ++ [Outb byte I8042_DATA_REG]) \/
     (r = -1 /\ trace w' = trace w)).
Proof. apply write_loop_total. Qed.

Lemma write_dev2_total (byte t : Z) (w : world) :
  exists r w',
    write_dev2 byte t w = (Normal r, w') /\ frame w w' /\
    ((r = 0 /\
      trace w' = trace w ++ [Outb I8042_WRITE_SECOND_PS2_INPUT_BUFFER I8042_COMMAND_REG;
                             Outb byte I8042_DATA_REG]) \/
     (r = -1 /\
      trace w' = trace w ++ [Outb I8042_WRITE_SECOND_PS2_INPUT_BUFFER I8042_COMMAND_REG])).
Proof.
  unfold write_dev2. rewrite bind_outb.
  destruct (write_loop_total (polls (env (log (Outb 0xD4 I8042_COMMAND_REG) w)) t) byte
              (log (Outb 0xD4 I8042_COMMAND_REG) w)) as (r & w' & E & F & T).
  exists r, w'. split; [exact E|]. split; [exact F|].
  simpl in T. rewrite <- !app_assoc in T. exact T.
Qed.

Lemma await_Some (on_timeout : M Z) (w w' : world) (b : Z) :
  read_reg 250 w = (Normal (Some b), w') -> await on_timeout w = (Normal b, w').
Proof. intros E. unfold await. rewrite (bind_Normal _ _ _ _ _ E). reflexivity. Qed.

Lemma await_None (on_timeout : M Z) (w w' : world) :
  read_reg 250 w = (Normal None, w') -> await on_timeout w = on_timeout w'.
Proof. intros E. unfold await. rewrite (bind_Normal _ _ _ _ _ E). reflexivity. Qed.

Lemma upto_Normal (here : label -> bool) (m : M unit) (w w' : world) :
  m w = (Normal tt, w') -> upto here m w = (Normal tt, w').
Proof. intros E. unfold upto. rewrite E. reflexivity. Qed.

Lemma upto_Goto (here : label -> bool) (m : M unit) (w w' : world) (l : label) :
  m w = (Goto l, w') -> here l = true -> upto here m w = (Normal tt, w').
Proof. intros E H. unfold upto. rewrite E, H. reflexivity. Qed.

(** One step of symbolic execution: the next primitive's result is known. *)
Ltac run E :=
  first [ rewrite (bind_Normal _ _ _ _ _ (await_Some _ _ _ _ E))
        | rewrite (bind_Normal _ _ _ _ _ E) ];
  cbv beta.

(** ** Device identification *)

Lemma is_truthy (z : Z) : z <> 0 -> truthy z = true.
Proof. intros H. unfold truthy. now destruct (Z.eqb_spec z 0). Qed.

Lemma not_truthy (z : Z) : truthy z = false -> z = 0.
Proof. unfold truthy. now destruct (Z.eqb_spec z 0). Qed.

(** The first block, once the exchange has produced the first identity
    byte [id]. *)
Lemma detect_first_reply (w w5 : world) (id : Z) :
  first_port w <> 0 ->
  identify_reply write_dev1 w id w5 ->
  detect_first w =
  (if id =? 0x00 then set_first_port MOUSE
   else if id =? 0x03 then set_first_port MOUSE
   else if id =? 0x04 then set_first_port MOUSE
   else if id =? 0xAB then
     byte2 <- await abandon_first ;;
     if (id =? 0xAB) && ((byte2 =? 0x41) || (byte2 =? 0xC1)) then set_first_port KEYBOARD
     else if (id =? 0xAB) && (byte2 =? 0x83) then set_first_port KEYBOARD
     else set_first_port UNDEFINED
   else set_first_port UNDEFINED) w5.
Proof.
  intros Hfp (w1 & w2 & w3 & w4 & b0 & E1 & E2 & E3 & E4 & E5).
  unfold detect_first. rewrite bind_get, (is_truthy _ Hfp). cbv beta iota delta [when].
  run E1. rewrite (bind_Normal _ _ w1 w1 tt) by reflexivity.
  run E2. run E3. rewrite (bind_Normal _ _ w3 w3 tt) by reflexivity.
  run E4. cbv beta. change (250 =? 250) with true. cbv iota.
  run E5. reflexivity.
Qed.

Lemma detect_second_reply (w w5 : world) (id : Z) :
  second_port w <> 0 ->
  identify_reply write_dev2 w id w5 ->
  detect_second w =
  (if id =? 0x00 then set_second_port MOUSE
   else if id =? 0x03 then set_second_port MOUSE
   else if id =? 0x04 then set_second_port MOUSE
   else if id =? 0xAB then
     byte2 <- await abandon_second ;;
     if (byte2 =? 0x41) || (byte2 =? 0xC1) then set_second_port KEYBOARD
     else set_second_port UNDEFINED
   else set_second_port UNDEFINED) w5.
Proof.
  intros Hsp (w1 & w2 & w3 & w4 & b0 & E1 & E2 & E3 & E4 & E5).
  unfold detect_second. rewrite bind_get, (is_truthy _ Hsp). cbv beta iota delta [when].
  run E1. rewrite (bind_Normal _ _ w1 w1 tt) by reflexivity.
  run E2. run E3. rewrite (bind_Normal _ _ w3 w3 tt) by reflexivity.
  run E4. change (250 =? 250) with true. cbv iota.
  run E5. reflexivity.
Qed.

(** C3. After the acknowledged identify command, the answer 0xAB followed
    by 0x41 or 0xC1 makes either port a keyboard; 0xAB followed by 0x83
    makes the first port a keyboard and leaves the second undefined. *)
Theorem keyboard_identification (w w5 w6 : world) (b2 : Z) :
  read_reg 250 w5 = (Normal (Some b2), w6) ->
  (first_port w <> 0 -> identify_reply write_dev1 w 0xAB w5 ->
   b2 = 0x41 \/ b2 = 0xC1 \/ b2 = 0x83 ->
   upto is_first_port_fail detect_first w = (Normal tt, with_first_port KEYBOARD w6))
  /\
  (second_port w <> 0 -> identify_reply write_dev2 w 0xAB w5 ->
   b2 = 0x41 \/ b2 = 0xC1 ->
   upto is_second_port_fail detect_second w = (Normal tt, with_second_port KEYBOARD w6))
  /\
  (second_port w <> 0 -> identify_reply write_dev2 w 0xAB w5 ->
   b2 = 0x83 ->
   upto is_second_port_fail detect_second w = (Normal tt, with_second_port UNDEFINED w6)).
Proof.
  intros E6. repeat split.
  - intros Hfp Hr Hb. apply upto_Normal.
    rewrite (detect_first_reply w w5 _ Hfp Hr). cbv beta iota.
    change (0xAB =? 0x00) with false. change (0xAB =? 0x03) with false.
    change (0xAB =? 0x04) with false. change (0xAB =? 0xAB) with true. cbv iota.
    run E6. destruct Hb as [->|[->| ->]]; reflexivity.
  - intros Hsp Hr Hb. apply upto_Normal.
    rewrite (detect_second_reply w w5 _ Hsp Hr). cbv beta iota.
    change (0xAB =? 0x00) with false. change (0xAB =? 0x03) with false.
    change (0xAB =? 0x04) with false. change (0xAB =? 0xAB) with true. cbv iota.
    run E6. destruct Hb as [->| ->]; reflexivity.
  - intros Hsp Hr ->. apply upto_Normal.
    rewrite (detect_second_reply w w5 _ Hsp Hr). cbv beta iota.
    change (0xAB =? 0x00) with false. change (0xAB =? 0x03) with false.
    change (0xAB =? 0x04) with false. change (0xAB =? 0xAB) with true. cbv iota.
    run E6. reflexivity.
Qed.

(** An MF2 keyboard answering 0xAB 0x83: recognised on the first port,
    rejected on the second. *)
Lemma keyboard_identification_witness :
  upto is_first_port_fail detect_first (both_usable (steady [0xFA; 0xFA; 0xAB; 0x83])) =
  (Normal tt,
   with_first_port KEYBOARD
     (after (write_dev1 I8042_DISABLE_SCANNING 250 ;; read_reg 250 ;;
             write_dev1 I8042_IDENTIFY 250 ;; read_reg 250 ;; read_reg 250 ;;
             read_reg 250)
        (both_usable (steady [0xFA; 0xFA; 0xAB; 0x83]))))
  /\
  upto is_second_port_fail detect_second (both_usable (steady [0xFA; 0xFA; 0xAB; 0x83])) =
  (Normal tt,
   with_second_port UNDEFINED
     (after (write_dev2 I8042_DISABLE_SCANNING 250 ;; read_reg 250 ;;
             write_dev2 I8042_IDENTIFY 250 ;; read_reg 250 ;; read_reg 250 ;;
             read_reg 250)
        (both_usable (steady [0xFA; 0xFA; 0xAB; 0x83])))).
Proof.
  pose (w := both_usable (steady [0xFA; 0xFA; 0xAB; 0x83])).
  split.
  - pose (w1 := after (write_dev1 I8042_DISABLE_SCANNING 250) w).
    pose (w2 := after (read_reg 250) w1).
    pose (w3 := after (write_dev1 I8042_IDENTIFY 250) w2).
    pose (w4 := after (read_reg 250) w3).
    pose (w5 := after (read_reg 250) w4).
    pose (w6 := after (read_reg 250) w5).
    apply (proj1 (keyboard_identification w w5 w6 0x83 ltac:(vm_compute; reflexivity))).
    + discriminate.
    + exists w1, w2, w3, w4, 0xFA. repeat split; vm_compute; reflexivity.
    + right; right; reflexivity.
  - pose (w1 := after (write_dev2 I8042_DISABLE_SCANNING 250) w).
    pose (w2 := after (read_reg 250) w1).
    pose (w3 := after (write_dev2 I8042_IDENTIFY 250) w2).
    pose (w4 := after (read_reg 250) w3).
    pose (w5 := after (read_reg 250) w4).
    pose (w6 := after (read_reg 250) w5).
    apply (proj2 (proj2 (keyboard_identification w w5 w6 0x83 ltac:(vm_compute; reflexivity)))).
    + discriminate.
    + exists w1, w2, w3, w4, 0xFA. repeat split; vm_compute; reflexivity.
    + reflexivity.
Defined.

Lemma await_abandon_first (w w' : world) :
  read_reg 250 w = (Normal None, w') ->
  await abandon_first w = (Goto first_port_fail, with_first_port UNDEFINED w').
Proof. intros E. rewrite (await_None _ _ _ E). reflexivity. Qed.

Lemma await_abandon_second (w w' : world) :
  read_reg 250 w = (Normal None, w') ->
  await abandon_second w = (Goto second_port_fail, with_second_port UNDEFINED w').
Proof. intros E. rewrite (await_None _ _ _ E). reflexivity. Qed.

(** Closes a branch of a detection block that ends with the port undefined. *)
Ltac ends_undefined :=
  eexists; split;
  [ first [ left; reflexivity | right; reflexivity ]
  | unfold frame in *; simpl; repeat split;
    try (intuition congruence);
    intros C; exfalso; apply C; reflexivity ].

(** Closes a branch that ends with the port classified, given the proof
    that the identification went through. *)
Ltac ends_classified H :=
  eexists; split;
  [ left; reflexivity
  | unfold frame in *; simpl; repeat split;
    try (intuition congruence);
    intros _; exact H ].

Lemma detect_first_cases (w : world) :
  exists w',
    (detect_first w = (Normal tt, w') \/ detect_first w = (Goto first_port_fail, w')) /\
    env w' = env w /\ second_port w' = second_port w /\
    (first_port w' <> UNDEFINED -> identified write_dev1 [0x41; 0xC1; 0x83] w).
Proof.
  destruct (truthy (first_port w)) eqn:T.
  2: { exists w. unfold detect_first. rewrite bind_get, T.
       split; [left; reflexivity|]. repeat split.
       intros H. apply not_truthy in T. contradiction. }
  destruct (write_dev1_total I8042_DISABLE_SCANNING 250 w) as (r1 & w1 & E1 & F1 & T1).
  destruct (read_reg_total 250 w1) as (o2 & w2 & E2 & F2 & _).
  destruct (write_dev1_total I8042_IDENTIFY 250 w2) as (r3 & w3 & E3 & F3 & T3).
  destruct (read_reg_total 250 w3) as (o4 & w4 & E4 & F4 & _).
  destruct (read_reg_total 250 w4) as (o5 & w5 & E5 & F5 & _).
  destruct (read_reg_total 250 w5) as (o6 & w6 & E6 & F6 & _).
  unfold detect_first. rewrite bind_get, T. cbv beta iota delta [when].
  run E1. destruct T1 as [[-> _]|[-> _]]; [|ends_undefined].
  rewrite (bind_Normal _ _ w1 w1 tt) by reflexivity.
  destruct o2 as [b0|]; [|rewrite (bind_Goto _ _ _ _ _ (await_abandon_first _ _ E2)); ends_undefined].
  run E2. run E3. destruct T3 as [[-> _]|[-> _]]; [|ends_undefined].
  rewrite (bind_Normal _ _ w3 w3 tt) by reflexivity.
  destruct o4 as [b4|]; [|rewrite (bind_Goto _ _ _ _ _ (await_abandon_first _ _ E4)); ends_undefined].
  run E4. destruct (Z.eqb_spec b4 0xFA) as [->|_]; [|ends_undefined].
  destruct o5 as [id|]; [|rewrite (bind_Goto _ _ _ _ _ (await_abandon_first _ _ E5)); ends_undefined].
  run E5.
  assert (R : identify_reply write_dev1 w id w5) by (exists w1, w2, w3, w4, b0; auto).
  assert (K0 : In id [0x00; 0x03; 0x04] -> identified write_dev1 [0x41; 0xC1; 0x83] w).
  { intros Hin. exists id, w5. split; [exact R | left; exact Hin]. }
  destruct (Z.eqb_spec id 0x00) as [->|_]; [ends_classified (K0 ltac:(simpl; auto))|].
  destruct (Z.eqb_spec id 0x03) as [->|_]; [ends_classified (K0 ltac:(simpl; auto))|].
  destruct (Z.eqb_spec id 0x04) as [->|_]; [ends_classified (K0 ltac:(simpl; auto))|].
  clear K0.
  destruct (Z.eqb_spec id 0xAB) as [->|_]; [|ends_undefined].
  destruct o6 as [b2|]; [|rewrite (bind_Goto _ _ _ _ _ (await_abandon_first _ _ E6)); ends_undefined].
  run E6. change (0xAB =? 0xAB) with true. cbv iota beta delta [andb].
  assert (K : In b2 [0x41; 0xC1; 0x83] -> identified write_dev1 [0x41; 0xC1; 0x83] w).
  { intros Hin. exists 0xAB, w5. split; [exact R|]. right. split; [reflexivity|].
    exists b2, w6. auto. }
  destruct (Z.eqb_spec b2 0x41) as [->|_]; [ends_classified (K ltac:(simpl; auto))|].
  destruct (Z.eqb_spec b2 0xC1) as [->|_]; [ends_classified (K ltac:(simpl; auto))|].
  cbv iota beta delta [orb].
  destruct (Z.eqb_spec b2 0x83) as [->|_]; [ends_classified (K ltac:(simpl; auto))|].
  ends_undefined.
Qed.

Lemma detect_second_cases (w : world) :
  exists w',
    (detect_second w = (Normal tt, w') \/ detect_second w = (Goto second_port_fail, w')) /\
    env w' = env w /\ first_port w' = first_port w /\
    (second_port w' <> UNDEFINED -> identified write_dev2 [0x41; 0xC1] w).
Proof.
  destruct (truthy (second_port w)) eqn:T.
  2: { exists w. unfold detect_second. rewrite bind_get, T.
       split; [left; reflexivity|]. repeat split.
       intros H. apply not_truthy in T. contradiction. }
  destruct (write_dev2_total I8042_DISABLE_SCANNING 250 w) as (r1 & w1 & E1 & F1 & T1).
  destruct (read_reg_total 250 w1) as (o2 & w2 & E2 & F2 & _).
  destruct (write_dev2_total I8042_IDENTIFY 250 w2) as (r3 & w3 & E3 & F3 & T3).
  destruct (read_reg_total 250 w3) as (o4 & w4 & E4 & F4 & _).
  destruct (read_reg_total 250 w4) as (o5 & w5 & E5 & F5 & _).
  destruct (read_reg_total 250 w5) as (o6 & w6 & E6 & F6 & _).
  unfold detect_second. rewrite bind_get, T. cbv beta iota delta [when].
  run E1. destruct T1 as [[-> _]|[-> _]]; [|ends_undefined].
  rewrite (bind_Normal _ _ w1 w1 tt) by reflexivity.
  destruct o2 as [b0|]; [|rewrite (bind_Goto _ _ _ _ _ (await_abandon_second _ _ E2)); ends_undefined].
  run E2. run E3. destruct T3 as [[-> _]|[-> _]]; [|ends_undefined].
  rewrite (bind_Normal _ _ w3 w3 tt) by reflexivity.
  destruct o4 as [b4|]; [|rewrite (bind_Goto _ _ _ _ _ (await_abandon_second _ _ E4)); ends_undefined].
  run E4. destruct (Z.eqb_spec b4 0xFA) as [->|_]; [|ends_undefined].
  destruct o5 as [id|]; [|rewrite (bind_Goto _ _ _ _ _ (await_abandon_second _ _ E5)); ends_undefined].
  run E5.
  assert (R : identify_reply write_dev2 w id w5) by (exists w1, w2, w3, w4, b0; auto).
  assert (K0 : In id [0x00; 0x03; 0x04] -> identified write_dev2 [0x41; 0xC1] w).
  { intros Hin. exists id, w5. split; [exact R | left; exact Hin]. }
  destruct (Z.eqb_spec id 0x00) as [->|_]; [ends_classified (K0 ltac:(simpl; auto))|].
  destruct (Z.eqb_spec id 0x03) as [->|_]; [ends_classified (K0 ltac:(simpl; auto))|].
  destruct (Z.eqb_spec id 0x04) as [->|_]; [ends_classified (K0 ltac:(simpl; auto))|].
  clear K0.
  destruct (Z.eqb_spec id 0xAB) as [->|_]; [|ends_undefined].
  destruct o6 as [b2|]; [|rewrite (bind_Goto _ _ _ _ _ (await_abandon_second _ _ E6)); ends_undefined].
  run E6.
  assert (K : In b2 [0x41; 0xC1] -> identified write_dev2 [0x41; 0xC1] w).
  { intros Hin. exists 0xAB, w5. split; [exact R|]. right. split; [reflexivity|].
    exists b2, w6. auto. }
  destruct (Z.eqb_spec b2 0x41) as [->|_]; [ends_classified (K ltac:(simpl; auto))|].
  destruct (Z.eqb_spec b2 0xC1) as [->|_]; [ends_classified (K ltac:(simpl; auto))|].
  ends_undefined.
Qed.

(** An identification that went through classifies the port. *)
Lemma identified_first_classified (w : world) :
  first_port w <> 0 ->
  identified write_dev1 [0x41; 0xC1; 0x83] w ->
  exists w',
    upto is_first_port_fail detect_first w = (Normal tt, w') /\ first_port w' <> UNDEFINED.
Proof.
  intros Hfp (id & w5 & R & [Hin | (-> & b2 & w6 & E6 & Hb)]).
  - exists (with_first_port MOUSE w5). split; [|discriminate].
    apply upto_Normal. rewrite (detect_first_reply w w5 id Hfp R).
    destruct Hin as [<-|[<-|[<-|[]]]]; reflexivity.
  - exists (with_first_port KEYBOARD w6). split; [|discriminate].
    apply upto_Normal. rewrite (detect_first_reply w w5 _ Hfp R). cbv beta iota.
    change (0xAB =? 0x00) with false. change (0xAB =? 0x03) with false.
    change (0xAB =? 0x04) with false. change (0xAB =? 0xAB) with true. cbv iota.
    run E6. destruct Hb as [<-|[<-|[<-|[]]]]; reflexivity.
Qed.

Lemma identified_second_classified (w : world) :
  second_port w <> 0 ->
  identified write_dev2 [0x41; 0xC1] w ->
  exists w',
    upto is_second_port_fail detect_second w = (Normal tt, w') /\ second_port w' <> UNDEFINED.
Proof.
  intros Hsp (id & w5 & R & [Hin | (-> & b2 & w6 & E6 & Hb)]).
  - exists (with_second_port MOUSE w5). split; [|discriminate].
    apply upto_Normal. rewrite (detect_second_reply w w5 id Hsp R).
    destruct Hin as [<-|[<-|[<-|[]]]]; reflexivity.
  - exists (with_second_port KEYBOARD w6). split; [|discriminate].
    apply upto_Normal. rewrite (detect_second_reply w w5 _ Hsp R). cbv beta iota.
    change (0xAB =? 0x00) with false. change (0xAB =? 0x03) with false.
    change (0xAB =? 0x04) with false. change (0xAB =? 0xAB) with true. cbv iota.
    run E6. destruct Hb as [<-|[<-|[]]]; reflexivity.
Qed.

(** C7. A detection block always hands control to the statement after its
    label: it never returns from [init_module], whatever the devices do.  A
    block leaves the other port's classification and the oracles untouched.
    Unless every step of the identification went through with a recognised
    answer (so after a timeout of any write or read, or an answer outside the
    recognised ones), the block leaves its own port undefined.  And the
    detection step of [init_module] as a whole is the first block followed
    by the second block run on the world the first one leaves, whether the
    first one failed or not: it ends normally, a port whose identification
    failed ends undefined, and a usable port whose device identifies itself
    is classified, whatever happened on the other port. *)
Theorem identification_failure_is_local (w : world) :
  (exists w',
      upto is_first_port_fail detect_first w = (Normal tt, w') /\
      env w' = env w /\ second_port w' = second_port w /\
      (~ identified write_dev1 [0x41; 0xC1; 0x83] w -> first_port w' = UNDEFINED))
  /\
  (exists w',
      upto is_second_port_fail detect_second w = (Normal tt, w') /\
      env w' = env w /\ first_port w' = first_port w /\
      (~ identified write_dev2 [0x41; 0xC1] w -> second_port w' = UNDEFINED))
  /\
  (exists w1 w2,
      upto is_first_port_fail detect_first w = (Normal tt, w1) /\
      upto is_second_port_fail detect_second w1 = (Normal tt, w2) /\
      detect_devices w = (Normal tt, w2) /\
      (~ identified write_dev1 [0x41; 0xC1; 0x83] w -> first_port w2 = UNDEFINED) /\
      (~ identified write_dev2 [0x41; 0xC1] w1 -> second_port w2 = UNDEFINED) /\
      (first_port w <> UNDEFINED -> identified write_dev1 [0x41; 0xC1; 0x83] w ->
       first_port w2 <> UNDEFINED) /\
      (second_port w <> UNDEFINED -> identified write_dev2 [0x41; 0xC1] w1 ->
       second_port w2 <> UNDEFINED)).
Proof.
  assert (H1 : forall w, exists w',
      upto is_first_port_fail detect_first w = (Normal tt, w') /\
      env w' = env w /\ second_port w' = second_port w /\
      (~ identified write_dev1 [0x41; 0xC1; 0x83] w -> first_port w' = UNDEFINED)).
  2: assert (H2 : forall w, exists w',
      upto is_second_port_fail detect_second w = (Normal tt, w') /\
      env w' = env w /\ first_port w' = first_port w /\
      (~ identified write_dev2 [0x41; 0xC1] w -> second_port w' = UNDEFINED)).
  3: { split; [apply H1|]. split; [apply H2|].
       destruct (H1 w) as (w1 & E1 & _ & S1 & U1).
       destruct (H2 w1) as (w2 & E2 & _ & F2 & U2).
       exists w1, w2. split; [exact E1|]. split; [exact E2|]. split.
       { unfold detect_devices. now rewrite (bind_Normal _ _ _ _ _ E1). }
       split; [intros N; rewrite F2; now apply U1|]. split; [exact U2|]. split.
       - intros Hfp Hid.
         destruct (identified_first_classified w Hfp Hid) as (v & Ev & Nv).
         rewrite E1 in Ev. injection Ev as <-. now rewrite F2.
       - intros Hsp Hid. rewrite <- S1 in Hsp.
         destruct (identified_second_classified w1 Hsp Hid) as (v & Ev & Nv).
         rewrite E2 in Ev. injection Ev as <-. exact Nv. }
  - clear w. intros w. destruct (detect_first_cases w) as (w' & [E|E] & He & Hs & Hi);
      exists w'; (split; [|split; [exact He|split; [exact Hs|]]]).
    + now apply upto_Normal.
    + intros N. destruct (Z.eq_dec (first_port w') UNDEFINED) as [e|n]; [exact e|].
      contradiction (N (Hi n)).
    + now apply (upto_Goto _ _ _ _ _ E).
    + intros N. destruct (Z.eq_dec (first_port w') UNDEFINED) as [e|n]; [exact e|].
      contradiction (N (Hi n)).
  - clear w. intros w. destruct (detect_second_cases w) as (w' & [E|E] & He & Hs & Hi);
      exists w'; (split; [|split; [exact He|split; [exact Hs|]]]).
    + now apply upto_Normal.
    + intros N. destruct (Z.eq_dec (second_port w') UNDEFINED) as [e|n]; [exact e|].
      contradiction (N (Hi n)).
    + now apply (upto_Goto _ _ _ _ _ E).
    + intros N. destruct (Z.eq_dec (second_port w') UNDEFINED) as [e|n]; [exact e|].
      contradiction (N (Hi n)).
Qed.

(** The device on the first port falls silent after the first command; the
    one on the second port answers as a keyboard.  The detection step ends
    normally with the first port undefined and the second a keyboard, its
    device having been asked and read after the failure on the first port. *)
Lemma identification_failure_is_local_witness :
  exists w2,
    detect_devices
      (both_usable (paced (fun n => if Nat.eqb n 1 || Nat.eqb n 2 then 0x00 else 0x01)
                          [0xFA; 0xFA; 0xAB; 0x41])) = (Normal tt, w2) /\
    first_port w2 = UNDEFINED /\ second_port w2 = KEYBOARD /\
    trace w2 =
    [Outb I8042_DISABLE_SCANNING I8042_DATA_REG;
     Outb I8042_WRITE_SECOND_PS2_INPUT_BUFFER I8042_COMMAND_REG;
     Outb I8042_DISABLE_SCANNING I8042_DATA_REG;
     Outb I8042_WRITE_SECOND_PS2_INPUT_BUFFER I8042_COMMAND_REG;
     Outb I8042_IDENTIFY I8042_DATA_REG].
Proof.
  destruct (proj2 (proj2 (identification_failure_is_local
                     (both_usable (paced (fun n => if Nat.eqb n 1 || Nat.eqb n 2 then 0x00 else 0x01)
                                         [0xFA; 0xFA; 0xAB; 0x41])))))
    as (w1 & w2 & E1 & E2 & E & U1 & _).
  exists w2. split; [exact E|]. split.
  - apply U1. intros (id & w5 & (v1 & v2 & v3 & v4 & b0 & F1 & F2 & _) & _).
    vm_compute in F1. injection F1 as <-. vm_compute in F2. discriminate F2.
  - vm_compute in E. injection E as <-. vm_compute. repeat split.
Defined.

(** ** Interface test *)

Lemma read_reg_frame (t : Z) (w w' : world) (r : option Z) :
  read_reg t w = (Normal r, w') -> frame w w' /\ trace w' = trace w.
Proof.
  intros E. destruct (read_reg_total t w) as (r0 & w0 & E0 & F & T).
  rewrite E in E0. injection E0 as <- <-. now split.
Qed.

(** Unfolds the control operators around the next primitive call. *)
Ltac exec :=
  cbv beta iota delta [bind when get outb emit await ret set_first_port set_second_port
                       do_return goto].

(** C8. The interface test, starting from both ports unusable.  Without
    dual-channel support only the first port is tested (one command is
    written, the second port stays unusable): answer 0x00 makes it usable and
    bring-up goes on, any other answer ends bring-up with [-EINVAL].  With
    dual-channel support both ports are tested, each is usable exactly if it
    answered 0x00, a failed port does not stop the test of the other, and
    bring-up ends with [-EINVAL] exactly if neither answered 0x00. *)
Theorem interface_test_outcome (w w1 : world) (b1 : Z) :
  first_port w = 0 -> second_port w = 0 ->
  read_reg 250 (log (Outb I8042_FIRST_PORT_INTERFACE_TEST I8042_COMMAND_REG) w)
  = (Normal (Some b1), w1) ->
  (exists w',
      interface_check false w =
      ((if b1 =? 0x00 then Normal tt else Return (- EINVAL)), w') /\
      first_port w' = (if b1 =? 0x00 then 1 else 0) /\
      second_port w' = 0 /\
      trace w' = trace w ++ [Outb I8042_FIRST_PORT_INTERFACE_TEST I8042_COMMAND_REG])
  /\
  (forall b2 w2,
      read_reg 250 (log (Outb I8042_SECOND_PORT_INTERFACE_TEST I8042_COMMAND_REG)
                        (if b1 =? 0x00 then with_first_port 1 w1 else w1))
      = (Normal (Some b2), w2) ->
      exists w',
        interface_check true w =
        ((if (b1 =? 0x00) || (b2 =? 0x00) then Normal tt else Return (- EINVAL)), w') /\
        first_port w' = (if b1 =? 0x00 then 1 else 0) /\
        second_port w' = (if b2 =? 0x00 then 1 else 0) /\
        trace w' = trace w ++ [Outb I8042_FIRST_PORT_INTERFACE_TEST I8042_COMMAND_REG;
                               Outb I8042_SECOND_PORT_INTERFACE_TEST I8042_COMMAND_REG]).
Proof.
  intros Hf Hs E1.
  destruct (read_reg_frame _ _ _ _ E1) as ((_ & F1 & S1) & T1).
  cbn [first_port second_port trace log] in F1, S1, T1.
  rewrite Hf in F1. rewrite Hs in S1.
  split.
  - unfold interface_check. exec. rewrite E1. exec.
    destruct (b1 =? 0x00); exec; cbn [first_port second_port with_first_port trace];
      rewrite ?F1, ?S1; cbn [truthy Z.eqb negb andb]; eexists; (split; [reflexivity|]);
      cbn [first_port second_port with_first_port trace]; auto.
  - intros b2 w2 E2.
    destruct (read_reg_frame _ _ _ _ E2) as ((_ & F2 & S2) & T2).
    unfold interface_check. exec. rewrite E1. exec.
    destruct (b1 =? 0x00); exec; rewrite E2; exec;
      cbn [first_port second_port trace log with_first_port] in F2, S2, T2;
      rewrite ?F1, ?S1, ?T1, <- ?app_assoc in *.
    all: destruct (b2 =? 0x00); exec;
      cbn [first_port second_port with_first_port with_second_port trace];
      rewrite ?F2, ?S2; cbn [truthy Z.eqb negb andb orb]; eexists; (split; [reflexivity|]);
      cbn [first_port second_port with_first_port with_second_port trace]; auto.
Qed.

(** Dual-channel controller whose first port answers 0x00 and whose second
    port answers 0x01: only the first becomes usable, bring-up goes on. *)
Lemma interface_test_outcome_witness :
  exists w',
    interface_check true (fresh (steady [0x00; 0x01])) = (Normal tt, w') /\
    first_port w' = 1 /\ second_port w' = 0 /\
    trace w' = [Outb I8042_FIRST_PORT_INTERFACE_TEST I8042_COMMAND_REG;
                Outb I8042_SECOND_PORT_INTERFACE_TEST I8042_COMMAND_REG].
Proof.
  pose (w := fresh (steady [0x00; 0x01])).
  pose (w1 := after (read_reg 250)
                (log (Outb I8042_FIRST_PORT_INTERFACE_TEST I8042_COMMAND_REG) w)).
  pose (w2 := after (read_reg 250)
                (log (Outb I8042_SECOND_PORT_INTERFACE_TEST I8042_COMMAND_REG)
                   (with_first_port 1 w1))).
  exact (proj2 (interface_test_outcome w w1 0x00 eq_refl eq_refl
                  ltac:(vm_compute; reflexivity))
           0x01 w2 ltac:(vm_compute; reflexivity)).
Defined.

(** ** Registration and unwinding *)

Lemma kernel_calls_app (a b : list action) :
  kernel_calls (a ++ b) = kernel_calls a ++ kernel_calls b.
Proof. apply filter_app. Qed.

Lemma write_dev1_frame (byte t : Z) (w w' : world) (r : Z) :
  write_dev1 byte t w = (Normal r, w') ->
  frame w w' /\ kernel_calls (trace w') = kernel_calls (trace w).
Proof.
  intros E. destruct (write_dev1_total byte t w) as (r0 & w0 & E0 & F & T).
  rewrite E in E0. injection E0 as <- <-. split; [exact F|].
  destruct T as [[_ ->]|[_ ->]]; [|reflexivity].
  rewrite kernel_calls_app. simpl. apply app_nil_r.
Qed.

(** The first registration block, when it runs to its end: the device is
    allocated and registered, line 1 is bound, in this order, and nothing
    else is asked of the kernel. *)
Lemma register_first_done (w w1 : world) :
  first_port w <> 0 ->
  register_first w = (Normal tt, w1) ->
  frame w w1 /\
  kernel_calls (trace w1) =
  kernel_calls (trace w) ++
  [InputAllocateDevice Dev1 true; InputRegisterDevice Dev1 0;
   RequestIrq I8042_IRQ1 Dev1 0].
Proof.
  intros Hfp. unfold register_first. rewrite bind_get, (is_truthy _ Hfp).
  cbv beta iota zeta delta [when bind input_allocate_device input_register_device request_irq].
  cbn [env log].
  destruct (alloc_ok (env w) Dev1); [|discriminate].
  cbv beta iota delta [negb ret]. cbn [env log].
  unfold truthy at 1.
  destruct (Z.eqb_spec (register_ret (env w) Dev1) 0) as [->|_]; [|discriminate].
  cbv beta iota delta [negb]. cbn [env log]. unfold truthy at 1.
  destruct (Z.eqb_spec (request_irq_ret (env w) I8042_IRQ1) 0) as [->|_]; [|discriminate].
  cbv beta iota delta [negb].
  match goal with |- context [write_dev1 ?b ?t ?x] =>
    destruct (write_dev1_total b t x) as (r & wa & E & _ & _);
    destruct (write_dev1_frame _ _ _ _ _ E) as (Fa & Ka); rewrite E
  end.
  destruct (r <? 0); [discriminate|].
  unfold await. cbv beta iota delta [bind].
  destruct (read_reg_total 250 wa) as (o & wb & Eb & Fb & Tb). rewrite Eb.
  destruct o; [|discriminate].
  intros H. injection H as <-. split.
  - unfold frame in *. cbn [env first_port second_port log] in Fa. intuition congruence.
  - rewrite Tb, Ka. cbn [trace log]. rewrite !kernel_calls_app, <- !app_assoc. reflexivity.
Qed.

(** C4. Port 1 is identified, its device registered, its line bound and its
    scanning enabled; the device of port 2 is allocated but its registration
    fails with [e].  Then [init_module] returns [e], and on the way out gives
    back what it holds, the most recently acquired first: the unregistered
    device of port 2, the binding of line 1, the registered device of port 1. *)
Theorem second_registration_failure_unwinds (w0 wc w w1 : world) (e : Z) :
  configure_controller w0 = (Normal tt, wc) ->
  detect_devices wc = (Normal tt, w) ->
  first_port w <> UNDEFINED ->
  second_port w <> UNDEFINED ->
  register_first w = (Normal tt, w1) ->
  alloc_ok (env w) Dev2 = true ->
  register_ret (env w) Dev2 = e ->
  e <> 0 ->
  let acquired :=
    [InputAllocateDevice Dev1 true; InputRegisterDevice Dev1 0;
     RequestIrq I8042_IRQ1 Dev1 0;
     InputAllocateDevice Dev2 true; InputRegisterDevice Dev2 e] in
  let held := [Allocated Dev2; Bound I8042_IRQ1 Dev1; Registered Dev1] in
  exists w',
    init_module w0 = (e, w') /\
    acquire [] acquired = held /\
    kernel_calls (trace w') = kernel_calls (trace w) ++ acquired ++ map release held.
Proof.
  intros Hc Hd Hfp Hsp Hr1 Ha2 Hr2 He acquired held.
  destruct (register_first_done w w1 Hfp Hr1) as ((Fe & Ff & Fs) & K).
  assert (Te : truthy e = true) by now apply is_truthy.
  eexists. split; [|split].
  - unfold init_module, init_module_body. run Hc. run Hd.
    unfold register_devices. run Hr1.
    unfold register_second. rewrite bind_get, Fs, (is_truthy _ Hsp).
    cbv beta iota zeta delta [when bind input_allocate_device input_register_device
                              goto_by_first_port get goto].
    repeat first [ progress cbv beta iota zeta delta [ret]
                 | progress cbn [env log first_port negb]
                 | rewrite Fe | rewrite Ha2 | rewrite Hr2 | rewrite Te
                 | rewrite Ff | rewrite (is_truthy _ Hfp) ].
    reflexivity.
  - subst acquired held. cbn [acquire Z.eqb input_dev_eqb].
    destruct (Z.eqb_spec e 0) as [?|_]; [contradiction|reflexivity].
  - subst acquired held. cbn [trace log]. rewrite !kernel_calls_app, K, <- !app_assoc.
    reflexivity.
Qed.

(** Two keyboards, the second of which the input core refuses with -5. *)
Lemma second_registration_failure_unwinds_witness :
  exists w',
    init_module (fresh (refusing_second two_keyboards (-5))) = (-5, w') /\
    kernel_calls (trace w') =
    [InputAllocateDevice Dev1 true; InputRegisterDevice Dev1 0;
     RequestIrq I8042_IRQ1 Dev1 0;
     InputAllocateDevice Dev2 true; InputRegisterDevice Dev2 (-5);
     InputFreeDevice Dev2; FreeIrq I8042_IRQ1 Dev1; InputUnregisterDevice Dev1].
Proof.
  pose (w0 := fresh (refusing_second two_keyboards (-5))).
  pose (wc := after configure_controller w0).
  pose (w := after detect_devices wc).
  pose (w1 := after register_first w).
  destruct (second_registration_failure_unwinds w0 wc w w1 (-5)
              ltac:(vm_compute; reflexivity) ltac:(vm_compute; reflexivity)
              ltac:(vm_compute; discriminate) ltac:(vm_compute; discriminate)
              ltac:(vm_compute; reflexivity) ltac:(vm_compute; reflexivity)
              ltac:(vm_compute; reflexivity) ltac:(discriminate))
    as (w' & E & _ & K).
  exists w'. split; [exact E|]. vm_compute in K. exact K.
Defined.

(** ** Where the code departs from its description *)

(** The step that sets the configuration byte, when both of its reads are
    answered: the byte written to the data register is the first answer [c]
    with bits 0, 1 and 6 cleared, and the dual-channel flag is bit 5 of the
    second answer [r], the byte read after that write. *)
Lemma set_config_byte_two_reads (w w1 w2 : world) (c r : Z) :
  read_reg 250 (log (Outb I8042_READ_CONFIG_BYTE I8042_COMMAND_REG) w)
  = (Normal (Some c), w1) ->
  read_reg 250
    (log (Outb (Z.clearbit (Z.clearbit (Z.clearbit c 0) 1) 6) I8042_DATA_REG) w1)
  = (Normal (Some r), w2) ->
  set_config_byte w =
  (Normal (Z.testbit r 5), log (Outb I8042_WRITE_CONFIG_BYTE I8042_COMMAND_REG) w2).
Proof.
  intros E1 E2. unfold set_config_byte. rewrite bind_outb. run E1.
  cbv zeta. rewrite bind_outb. run E2. reflexivity.
Qed.

(** C5, on a controller whose configuration byte 0x45 has bit 5 clear and
    which answers the data write with 0xFA: the byte written back is 0x04,
    the "write config byte" command follows it, and the dual-channel flag
    comes out set, as bit 5 of 0xFA. *)
Lemma dual_channel_flag_from_overwritten_byte :
  Z.testbit 0x45 5 = false /\
  fst ((disable_ports ;; flush_output_buffer ;; set_config_byte)
         (fresh (steady [0x00; 0x45; 0xFA]))) = Normal true /\
  trace (snd ((disable_ports ;; flush_output_buffer ;; set_config_byte)
                (fresh (steady [0x00; 0x45; 0xFA])))) =
  [Outb I8042_DISABLE_FIRST_PS2_PORT I8042_COMMAND_REG;
   Outb I8042_DISABLE_SECOND_PS2_PORT I8042_COMMAND_REG;
   Outb I8042_READ_CONFIG_BYTE I8042_COMMAND_REG;
   Outb I8042_READ_CONFIG_BYTE I8042_COMMAND_REG;
   Outb 0x04 I8042_DATA_REG;
   Outb I8042_WRITE_CONFIG_BYTE I8042_COMMAND_REG].
Proof. repeat split; vm_compute; reflexivity. Qed.

(** C6, on a single-channel controller whose first port passed its
    interface test: the reset command is sent to the second port all the
    same (0xD4, then 0xFF), and as nothing answers it [init_module] returns
    [-ETIME], with the first port usable and the second not. *)
Lemma reset_sent_to_unusable_port :
  fst (init_module (fresh single_channel)) = - ETIME /\
  first_port (snd (init_module (fresh single_channel))) = 1 /\
  second_port (snd (init_module (fresh single_channel))) = 0 /\
  trace (snd (init_module (fresh single_channel))) =
  [Outb I8042_DISABLE_FIRST_PS2_PORT I8042_COMMAND_REG;
   Outb I8042_DISABLE_SECOND_PS2_PORT I8042_COMMAND_REG;
   Outb I8042_READ_CONFIG_BYTE I8042_COMMAND_REG;
   Outb I8042_READ_CONFIG_BYTE I8042_COMMAND_REG;
   Outb 0x04 I8042_DATA_REG;
   Outb I8042_WRITE_CONFIG_BYTE I8042_COMMAND_REG;
   Outb I8042_SELF_TEST I8042_COMMAND_REG;
   Outb I8042_FIRST_PORT_INTERFACE_TEST I8042_COMMAND_REG;
   Outb I8042_READ_CONFIG_BYTE I8042_COMMAND_REG;
   Outb I8042_ENABLE_FIRST_PS2_PORT I8042_COMMAND_REG;
   Outb 0x45 I8042_DATA_REG;
   Outb I8042_WRITE_CONFIG_BYTE I8042_COMMAND_REG;
   Outb I8042_RESET I8042_DATA_REG;
   Outb I8042_WRITE_SECOND_PS2_INPUT_BUFFER I8042_COMMAND_REG;
   Outb I8042_RESET I8042_DATA_REG].
Proof. repeat split; vm_compute; reflexivity. Qed.

(** ** Every path through [init_module] ends in a [return] *)

Lemma bind_in_body {A B : Type} (m : M A) (k : A -> M B) :
  (forall w, in_body (m w)) -> (forall a w, in_body (k a w)) ->
  forall w, in_body (bind m k w).
Proof.
  intros Hm Hk w. unfold bind. specialize (Hm w).
  destruct (m w) as [[a|c|l] w']; [apply Hk | exact I | exact Hm].
Qed.

Lemma read_reg_in_body (t : Z) (w : world) : in_body (read_reg t w).
Proof. destruct (read_reg_total t w) as (r & w' & E & _). rewrite E. exact I. Qed.

Lemma write_dev1_in_body (b t : Z) (w : world) : in_body (write_dev1 b t w).
Proof. destruct (write_dev1_total b t w) as (r & w' & E & _). rewrite E. exact I. Qed.

Lemma write_dev2_in_body (b t : Z) (w : world) : in_body (write_dev2 b t w).
Proof. destruct (write_dev2_total b t w) as (r & w' & E & _). rewrite E. exact I. Qed.

Lemma detect_devices_in_body (w : world) : in_body (detect_devices w).
Proof.
  destruct (detect_first_cases w) as (w1 & E1 & _).
  destruct (detect_second_cases w1) as (w2 & E2 & _).
  assert (U1 : upto is_first_port_fail detect_first w = (Normal tt, w1))
    by (destruct E1 as [E|E]; [now apply upto_Normal | now apply (upto_Goto _ _ _ _ _ E)]).
  assert (U2 : upto is_second_port_fail detect_second w1 = (Normal tt, w2))
    by (destruct E2 as [E|E]; [now apply upto_Normal | now apply (upto_Goto _ _ _ _ _ E)]).
  unfold detect_devices. rewrite (bind_Normal _ _ _ _ _ U1), U2. exact I.
Qed.

(** Walks through a sequence of statements, primitive by primitive. *)
Ltac stays_in_body :=
  repeat first
    [ apply read_reg_in_body | apply write_dev1_in_body | apply write_dev2_in_body
    | apply detect_devices_in_body
    | exact I
    | apply bind_in_body; intros
    | match goal with
      | |- in_body (await _ _) => unfold await
      | |- in_body (when ?c _ _) => destruct c; unfold when
      | |- in_body ((if ?c then _ else _) _) => destruct c
      | |- in_body (match ?o with Some _ => _ | None => _ end _) => destruct o
      | |- in_body (goto_by_first_port _ _ _) => unfold goto_by_first_port
      end ].

(** The inner labels are resolved inside the body: [init_module] always
    ends by one of the [return] statements of the source. *)
Lemma init_module_body_in_body (w : world) : in_body (init_module_body w).
Proof.
  revert w.
  unfold init_module_body, configure_controller, register_devices, disable_ports,
    flush_output_buffer, set_config_byte, self_test, probe_dual_channel, interface_check,
    enable_ports, reset_devices, register_first, register_second.
  stays_in_body.
Qed.

(** ** The polling loops, poll by poll *)

Lemma advance_status_next (k : nat) (w : world) :
  advance_status k (next_status w) = advance_status (S k) w.
Proof.
  unfold advance_status, next_status. cbn [env n_status n_data trace first_port second_port].
  now rewrite Nat.add_succ_r.
Qed.

Lemma status_byte_next (k : nat) (w : world) :
  status_byte (next_status w) k = status_byte w (S k).
Proof.
  unfold status_byte, next_status. cbn [env n_status]. now rewrite Nat.add_succ_r.
Qed.

Lemma read_reg_loop_step (n : nat) (w : world) :
  read_reg_loop (S n) w =
  if Z.testbit (status_byte w 0) 0
  then (Normal (Some (data_byte w 0)), next_data (next_status w))
  else read_reg_loop n (next_status w).
Proof.
  cbn [read_reg_loop]. unfold bind, inb, status_byte, data_byte.
  change (I8042_STATUS_REG =? I8042_STATUS_REG) with true.
  change (I8042_DATA_REG =? I8042_STATUS_REG) with false. cbv iota.
  cbn [Nat.add]. destruct (Z.testbit (status_in (env w) (n_status w) mod 256) 0); reflexivity.
Qed.

Lemma write_loop_step (n : nat) (byte : Z) (w : world) :
  write_loop (S n) byte w =
  if Z.testbit (status_byte w 0) 1
  then write_loop n byte (next_status w)
  else (Normal 0, log (Outb byte I8042_DATA_REG) (next_status w)).
Proof.
  cbn [write_loop]. unfold bind, inb, status_byte.
  change (I8042_STATUS_REG =? I8042_STATUS_REG) with true. cbv iota.
  cbn [Nat.add]. destruct (Z.testbit (status_in (env w) (n_status w) mod 256) 1); reflexivity.
Qed.

Lemma read_reg_loop_timeout (n : nat) :
  forall w,
    (forall k, (k < n)%nat -> Z.testbit (status_byte w k) 0 = false) ->
    read_reg_loop n w = (Normal None, advance_status n w).
Proof.
  induction n as [|n IH]; intros w H.
  - destruct w; reflexivity.
  - rewrite read_reg_loop_step, (H 0%nat) by lia.
    rewrite IH, advance_status_next; [reflexivity|].
    intros k Hk. rewrite status_byte_next. apply H. lia.
Qed.

Lemma read_reg_loop_ready (n : nat) :
  forall k w,
    (k < n)%nat ->
    (forall j, (j < k)%nat -> Z.testbit (status_byte w j) 0 = false) ->
    Z.testbit (status_byte w k) 0 = true ->
    read_reg_loop n w =
    (Normal (Some (data_byte w 0)), next_data (advance_status (S k) w)).
Proof.
  induction n as [|n IH]; intros k w Hk Hlow Hset; [lia|].
  rewrite read_reg_loop_step. destruct k as [|k].
  - rewrite Hset. destruct w; reflexivity.
  - rewrite (Hlow 0%nat) by lia.
    rewrite (IH k (next_status w)).
    + rewrite advance_status_next. reflexivity.
    + lia.
    + intros j Hj. rewrite status_byte_next. apply Hlow. lia.
    + rewrite status_byte_next. exact Hset.
Qed.

Lemma write_loop_timeout (n : nat) (byte : Z) :
  forall w,
    (forall k, (k < n)%nat -> Z.testbit (status_byte w k) 1 = true) ->
    write_loop n byte w = (Normal (-1), advance_status n w).
Proof.
  induction n as [|n IH]; intros w H.
  - destruct w; reflexivity.
  - rewrite write_loop_step, (H 0%nat) by lia.
    rewrite IH, advance_status_next; [reflexivity|].
    intros k Hk. rewrite status_byte_next. apply H. lia.
Qed.

Lemma write_loop_ready (n : nat) (byte : Z) :
  forall k w,
    (k < n)%nat ->
    (forall j, (j < k)%nat -> Z.testbit (status_byte w j) 1 = true) ->
    Z.testbit (status_byte w k) 1 = false ->
    write_loop n byte w =
    (Normal 0, log (Outb byte I8042_DATA_REG) (advance_status (S k) w)).
Proof.
  induction n as [|n IH]; intros k w Hk Hlow Hclear; [lia|].
  rewrite write_loop_step. destruct k as [|k].
  - rewrite Hclear. destruct w; reflexivity.
  - rewrite (Hlow 0%nat) by lia.
    rewrite (IH k (next_status w)).
    + rewrite advance_status_next. reflexivity.
    + lia.
    + intros j Hj. rewrite status_byte_next. apply Hlow. lia.
    + rewrite status_byte_next. exact Hclear.
Qed.

(** X1. [read_reg] polls the status register until bit 0 is set: if none
    of the polls that fit into the wait finds it set, it times out after
    exactly that many polls without touching the data register; otherwise it
    stops at the first poll that finds it set and returns the next byte of
    the data register.  It writes nothing either way. *)
Theorem read_reg_outcome (t : Z) (w : world) :
  ((forall k, (k < polls (env w) t)%nat -> Z.testbit (status_byte w k) 0 = false) ->
   read_reg t w = (Normal None, advance_status (polls (env w) t) w))
  /\
  (forall k,
      (k < polls (env w) t)%nat ->
      (forall j, (j < k)%nat -> Z.testbit (status_byte w j) 0 = false) ->
      Z.testbit (status_byte w k) 0 = true ->
      read_reg t w =
      (Normal (Some (data_byte w 0)), next_data (advance_status (S k) w))).
Proof.
  split.
  - intros H. now apply read_reg_loop_timeout.
  - intros k Hk Hlow Hset. now apply read_reg_loop_ready.
Qed.

(** With two polls to a wait: a silent controller times the read out after
    two polls; one that is ready at the second poll delivers its byte. *)
Lemma read_reg_outcome_witness :
  read_reg 250 (fresh (paced (fun _ => 0x00) [0x55])) =
  (Normal None, advance_status 2 (fresh (paced (fun _ => 0x00) [0x55])))
  /\
  read_reg 250 (fresh (paced (fun n => if Nat.eqb n 0 then 0x00 else 0x01) [0x55])) =
  (Normal (Some 0x55),
   next_data (advance_status 2
                (fresh (paced (fun n => if Nat.eqb n 0 then 0x00 else 0x01) [0x55])))).
Proof.
  split.
  - apply (proj1 (read_reg_outcome 250 (fresh (paced (fun _ => 0x00) [0x55])))).
    intros k _. reflexivity.
  - apply (proj2 (read_reg_outcome 250
                    (fresh (paced (fun n => if Nat.eqb n 0 then 0x00 else 0x01) [0x55])))
             1%nat).
    + simpl. lia.
    + intros [|j] Hj; [reflexivity | lia].
    + reflexivity.
Defined.

(** X2. [write_dev1], given a byte (a value of its [uint8_t] parameter,
    0 to 255), polls the status register until bit 1 is clear: if every poll
    that fits into the wait finds it set, it returns -1 and has written
    nothing; otherwise it stops at the first poll that finds it clear, writes
    the byte to the data register, once, and returns 0. *)
Theorem write_dev1_outcome (byte t : Z) (w : world) :
  0 <= byte < 256 ->
  ((forall k, (k < polls (env w) t)%nat -> Z.testbit (status_byte w k) 1 = true) ->
   write_dev1 byte t w = (Normal (-1), advance_status (polls (env w) t) w))
  /\
  (forall k,
      (k < polls (env w) t)%nat ->
      (forall j, (j < k)%nat -> Z.testbit (status_byte w j) 1 = true) ->
      Z.testbit (status_byte w k) 1 = false ->
      write_dev1 byte t w =
      (Normal 0, log (Outb byte I8042_DATA_REG) (advance_status (S k) w))).
Proof.
  intros _. split.
  - intros H. now apply write_loop_timeout.
  - intros k Hk Hlow Hclear. now apply write_loop_ready.
Qed.

Lemma write_dev1_outcome_witness :
  write_dev1 I8042_RESET 250 (fresh (paced (fun _ => 0x02) [])) =
  (Normal (-1), advance_status 2 (fresh (paced (fun _ => 0x02) [])))
  /\
  write_dev1 I8042_RESET 250 (fresh (paced (fun n => if Nat.eqb n 0 then 0x02 else 0x00) [])) =
  (Normal 0,
   log (Outb I8042_RESET I8042_DATA_REG)
     (advance_status 2 (fresh (paced (fun n => if Nat.eqb n 0 then 0x02 else 0x00) [])))).
Proof.
  split.
  - apply (proj1 (write_dev1_outcome I8042_RESET 250 (fresh (paced (fun _ => 0x02) []))
                    ltac:(unfold I8042_RESET; lia))).
    intros k _. reflexivity.
  - apply (proj2 (write_dev1_outcome I8042_RESET 250
                    (fresh (paced (fun n => if Nat.eqb n 0 then 0x02 else 0x00) []))
                    ltac:(unfold I8042_RESET; lia))
             1%nat).
    + simpl. lia.
    + intros [|j] Hj; [reflexivity | lia].
    + reflexivity.
Defined.

(** X3. [write_dev2], given a byte (a value of its [uint8_t] parameter,
    0 to 255), sends the command 0xD4 to the controller before it polls, so
    the command goes out even when the poll times out and the data byte is
    never written; when a poll finds bit 1 clear the byte follows the
    command. *)
Theorem write_dev2_outcome (byte t : Z) (w : world) :
  0 <= byte < 256 ->
  let w0 := log (Outb I8042_WRITE_SECOND_PS2_INPUT_BUFFER I8042_COMMAND_REG) w in
  ((forall k, (k < polls (env w) t)%nat -> Z.testbit (status_byte w k) 1 = true) ->
   write_dev2 byte t w = (Normal (-1), advance_status (polls (env w) t) w0))
  /\
  (forall k,
      (k < polls (env w) t)%nat ->
      (forall j, (j < k)%nat -> Z.testbit (status_byte w j) 1 = true) ->
      Z.testbit (status_byte w k) 1 = false ->
      write_dev2 byte t w =
      (Normal 0, log (Outb byte I8042_DATA_REG) (advance_status (S k) w0))).
Proof.
  intros _ w0. unfold write_dev2. rewrite bind_outb. fold w0. split.
  - intros H. now apply write_loop_timeout.
  - intros k Hk Hlow Hclear. now apply write_loop_ready.
Qed.

Lemma write_dev2_outcome_witness :
  write_dev2 I8042_RESET 250 (fresh (paced (fun _ => 0x02) [])) =
  (Normal (-1),
   advance_status 2
     (log (Outb I8042_WRITE_SECOND_PS2_INPUT_BUFFER I8042_COMMAND_REG)
        (fresh (paced (fun _ => 0x02) []))))
  /\
  trace (snd (write_dev2 I8042_RESET 250 (fresh (paced (fun _ => 0x02) [])))) =
  [Outb I8042_WRITE_SECOND_PS2_INPUT_BUFFER I8042_COMMAND_REG].
Proof.
  assert (H := proj1 (write_dev2_outcome I8042_RESET 250 (fresh (paced (fun _ => 0x02) []))
                        ltac:(unfold I8042_RESET; lia))
                 (fun k _ => eq_refl)).
  split; [exact H|]. rewrite H. reflexivity.
Defined.

(** ** More on the interrupt handler *)

Lemma release_is_press_with_bit7 (i : nat) :
  (i < 85)%nat ->
  nth i release_scancodes 0 = Z.lor (nth i press_scancodes 0) 0x80.
Proof.
  intros H. do 85 (destruct i as [|i]; [vm_compute; reflexivity|]). lia.
Qed.

Lemma esc_release_is_press_with_bit7 (i : nat) :
  (i < 15)%nat ->
  nth i esc_release_scancodes 0 = Z.lor (nth i esc_press_scancodes 0) 0x80.
Proof.
  intros H. do 15 (destruct i as [|i]; [vm_compute; reflexivity|]). lia.
Qed.

(** X5. Make and break codes pair up through bit 7: the scancode of a
    pressed key with bit 7 set is reported as the release of the same key,
    for the one-byte codes and, after 0xE0, for the escaped ones. *)
Theorem break_code_is_make_code_with_bit7 (dev : input_dev) (w : world) :
  (forall i, (i < 85)%nat ->
     data_byte w 0 = Z.lor (nth i press_scancodes 0) 0x80 ->
     i8042_handler I8042_IRQ1 dev w =
     (Normal IRQ_HANDLED,
      log (InputSync dev)
        (log (InputReportKey dev (nth i keys KEY_RESERVED) 0) (next_data w))))
  /\
  (forall i, (i < 15)%nat ->
     data_byte w 0 = 0xE0 ->
     data_byte w 1 = Z.lor (nth i esc_press_scancodes 0) 0x80 ->
     i8042_handler I8042_IRQ1 dev w =
     (Normal IRQ_HANDLED,
      log (InputSync dev)
        (log (InputReportKey dev (nth i esc_keys KEY_RESERVED) 0)
           (next_data (next_data w))))).
Proof.
  split.
  - intros i Hi Hb. rewrite <- release_is_press_with_bit7 in Hb by assumption.
    rewrite handler_plain by (rewrite Hb; now apply release_not_escape).
    rewrite Hb, lookup_release by assumption. reflexivity.
  - intros i Hi He Hb. rewrite <- esc_release_is_press_with_bit7 in Hb by assumption.
    rewrite (handler_escape dev w He), Hb, lookup_esc_release by assumption. reflexivity.
Qed.

(** 0x1E is A pressed, so 0x9E is A released. *)
Lemma break_code_is_make_code_with_bit7_witness :
  nth 29 press_scancodes 0 = 0x1E /\
  i8042_handler I8042_IRQ1 Dev1 (fresh (steady [0x9E])) =
  (Normal IRQ_HANDLED,
   log (InputSync Dev1) (log (InputReportKey Dev1 KEY_A 0) (next_data (fresh (steady [0x9E]))))).
Proof.
  split; [reflexivity|].
  apply (proj1 (break_code_is_make_code_with_bit7 Dev1 (fresh (steady [0x9E]))) 29%nat).
  - lia.
  - reflexivity.
Defined.

Lemma forallb_on_sink_report (dev : input_dev) (r : option (key * Z)) :
  forallb (on_sink dev)
    (match r with Some (k, v) => [InputReportKey dev k v] | None => [] end ++ [InputSync dev])
  = true.
Proof. destruct r as [[k v]|]; destruct dev; reflexivity. Qed.

(** X4. Whatever the line and the bytes, an invocation of the handler only
    adds reports and a sync on its own device to the trace: it writes to no
    port and calls no other kernel service.  It reads no status, leaves the
    globals alone, and takes one byte from the data register, or two exactly
    when it is on line 1 and the first byte is 0xE0. *)
Theorem handler_footprint (irq : Z) (dev : input_dev) (w : world) :
  let w' := snd (i8042_handler irq dev w) in
  (exists evs, trace w' = trace w ++ evs /\ forallb (on_sink dev) evs = true) /\
  env w' = env w /\
  n_status w' = n_status w /\
  first_port w' = first_port w /\
  second_port w' = second_port w /\
  n_data w' =
  (if (irq =? I8042_IRQ1) && (data_byte w 0 =? 0xE0)
   then S (S (n_data w)) else S (n_data w)).
Proof.
  destruct (Z.eq_dec irq I8042_IRQ1) as [->|Hirq].
  - destruct (Z.eq_dec (data_byte w 0) 0xE0) as [He|He].
    + rewrite (handler_escape dev w He), He. cbn [snd].
      split; [|repeat split; destruct (lookup _ _ _ _ _ _) as [[k v]|]; reflexivity].
      eexists. split; [|apply forallb_on_sink_report].
      cbn [trace log]. rewrite trace_report, <- app_assoc. reflexivity.
    + rewrite (handler_plain dev w He). cbn [snd].
      replace (data_byte w 0 =? 0xE0) with false by (symmetry; now apply Z.eqb_neq).
      split; [|repeat split; destruct (lookup _ _ _ _ _ _) as [[k v]|]; reflexivity].
      eexists. split; [|apply forallb_on_sink_report].
      cbn [trace log]. rewrite trace_report, <- app_assoc. reflexivity.
  - rewrite (handler_other_line irq dev w Hirq). cbn [snd].
    replace (irq =? I8042_IRQ1) with false by (symmetry; now apply Z.eqb_neq).
    split; [|repeat split].
    exists [InputSync dev]. split; [reflexivity|]. destruct dev; reflexivity.
Qed.

(** X6. The handler keeps no state and looks at nothing but the bytes it
    reads: in two worlds whose next two data bytes agree it returns the same
    value and adds the same reports to the trace, whatever the status
    register, the earlier trace and the classification of the ports are.  In
    particular the bytes of a device classified as a mouse on the first port
    are decoded as key scancodes. *)
Theorem handler_depends_on_bytes_only (irq : Z) (dev : input_dev) (w1 w2 : world) :
  data_byte w1 0 = data_byte w2 0 ->
  data_byte w1 1 = data_byte w2 1 ->
  fst (i8042_handler irq dev w1) = fst (i8042_handler irq dev w2) /\
  exists evs,
    trace (snd (i8042_handler irq dev w1)) = trace w1 ++ evs /\
    trace (snd (i8042_handler irq dev w2)) = trace w2 ++ evs.
Proof.
  intros H0 H1.
  destruct (Z.eq_dec irq I8042_IRQ1) as [->|Hirq].
  - destruct (Z.eq_dec (data_byte w1 0) 0xE0) as [He|He].
    + rewrite (handler_escape dev w1 He), (handler_escape dev w2) by congruence.
      split; [reflexivity|]. cbn [snd trace log]. rewrite !trace_report, H1, <- !app_assoc.
      eexists. split; reflexivity.
    + rewrite (handler_plain dev w1 He), (handler_plain dev w2) by congruence.
      split; [reflexivity|]. cbn [snd trace log]. rewrite !trace_report, H0, <- !app_assoc.
      eexists. split; reflexivity.
  - rewrite !handler_other_line by exact Hirq. split; [reflexivity|].
    exists [InputSync dev]. split; reflexivity.
Qed.

(** 0x1E on line 1 is A pressed, in a fresh world with a keyboard as in a
    world with a mouse on the first port, a busy status register and an
    earlier trace. *)
Lemma handler_depends_on_bytes_only_witness :
  exists evs,
    evs = [InputReportKey Dev1 KEY_A 1; InputSync Dev1] /\
    trace (snd (i8042_handler I8042_IRQ1 Dev1 (fresh (steady [0x1E])))) = [] ++ evs /\
    trace (snd (i8042_handler I8042_IRQ1 Dev1
                  (mkWorld (paced (fun _ => 0x02) [0x00; 0x1E]) 5 1
                           [Outb I8042_RESET I8042_DATA_REG] MOUSE UNDEFINED))) =
    [Outb I8042_RESET I8042_DATA_REG] ++ evs.
Proof.
  destruct (proj2 (handler_depends_on_bytes_only I8042_IRQ1 Dev1
                     (fresh (steady [0x1E]))
                     (mkWorld (paced (fun _ => 0x02) [0x00; 0x1E]) 5 1
                              [Outb I8042_RESET I8042_DATA_REG] MOUSE UNDEFINED)
                     eq_refl eq_refl))
    as (evs & E1 & E2).
  exists evs. split; [|split; assumption].
  vm_compute in E1. symmetry. exact E1.
Defined.

(** ** Relations every statement keeps *)

Section Keeps.

Variable R : world -> world -> Prop.
Hypothesis R_refl : forall w, R w w.
Hypothesis R_trans : forall a b c, R a b -> R b c -> R a c.
Hypothesis R_next_status : forall w, R w (next_status w).
Hypothesis R_next_data : forall w, R w (next_data w).
Hypothesis R_outb : forall v p w, R w (log (Outb v p) w).

Lemma keeps_ret {A : Type} (a : A) : keeps R (ret a).
Proof. intros w. apply R_refl. Qed.

Lemma keeps_do_return {A : Type} (c : Z) : keeps R (@do_return A c).
Proof. intros w. apply R_refl. Qed.

Lemma keeps_goto {A : Type} (l : label) : keeps R (@goto A l).
Proof. intros w. apply R_refl. Qed.

Lemma keeps_get {A : Type} (f : world -> A) : keeps R (get f).
Proof. intros w. apply R_refl. Qed.

Lemma keeps_bind {A B : Type} (m : M A) (k : A -> M B) :
  keeps R m -> (forall a, keeps R (k a)) -> keeps R (bind m k).
Proof.
  intros Hm Hk w. unfold bind. specialize (Hm w).
  destruct (m w) as [[a|c|l] w1]; cbn [snd] in *; [|exact Hm|exact Hm].
  apply (R_trans _ _ _ Hm). apply Hk.
Qed.

Lemma keeps_when (c : bool) (m : M unit) : keeps R m -> keeps R (when c m).
Proof. intros H. destruct c; [exact H | apply keeps_ret]. Qed.

Lemma keeps_upto (here : label -> bool) (m : M unit) : keeps R m -> keeps R (upto here m).
Proof.
  intros H w. unfold upto. specialize (H w).
  destruct (m w) as [[a|c|l] w1]; cbn [snd] in *; [exact H|exact H|].
  destruct (here l); exact H.
Qed.

Lemma keeps_outb (v p : Z) : keeps R (outb v p).
Proof. intros w. apply R_outb. Qed.

Lemma keeps_inb (p : Z) : keeps R (inb p).
Proof. intros w. unfold inb. destruct (p =? I8042_STATUS_REG); cbn [snd]; auto. Qed.

Lemma keeps_read_reg_loop (n : nat) : keeps R (read_reg_loop n).
Proof.
  induction n as [|n IH]; cbn [read_reg_loop]; [apply keeps_ret|].
  apply keeps_bind; [apply keeps_inb|]. intros status.
  destruct (Z.testbit status 0); [|exact IH].
  apply keeps_bind; [apply keeps_inb|]. intros b. apply keeps_ret.
Qed.

Lemma keeps_read_reg (t : Z) : keeps R (read_reg t).
Proof. intros w. apply keeps_read_reg_loop. Qed.

Lemma keeps_write_loop (n : nat) (byte : Z) : keeps R (write_loop n byte).
Proof.
  induction n as [|n IH]; cbn [write_loop]; [apply keeps_ret|].
  apply keeps_bind; [apply keeps_inb|]. intros status.
  destruct (negb (Z.testbit status 1)); [|exact IH].
  apply keeps_bind; [apply keeps_outb|]. intros _. apply keeps_ret.
Qed.

Lemma keeps_write_dev1 (byte t : Z) : keeps R (write_dev1 byte t).
Proof. intros w. apply keeps_write_loop. Qed.

Lemma keeps_write_dev2 (byte t : Z) : keeps R (write_dev2 byte t).
Proof.
  unfold write_dev2. apply keeps_bind; [apply keeps_outb|].
  intros _ w. apply keeps_write_loop.
Qed.

Lemma keeps_await (on_timeout : M Z) : keeps R on_timeout -> keeps R (await on_timeout).
Proof.
  intros H. unfold await. apply keeps_bind; [apply keeps_read_reg|].
  intros [b|]; [apply keeps_ret | exact H].
Qed.

End Keeps.

(** Walks through a sequence of statements and leaves the statements that
    change the globals or call the kernel to [leaf]. *)
Ltac keeps_with leaf :=
  repeat first
    [ apply keeps_ret; assumption
    | apply keeps_do_return; assumption
    | apply keeps_goto; assumption
    | apply keeps_get; assumption
    | apply keeps_outb; assumption
    | apply keeps_read_reg; assumption
    | apply keeps_write_dev1; assumption
    | apply keeps_write_dev2; assumption
    | apply keeps_await; [assumption..|]
    | apply keeps_when; [assumption|]
    | apply keeps_upto
    | apply keeps_bind; [assumption| |intros ?]
    | progress cbv zeta
    | match goal with
      | |- keeps _ (if ?c then _ else _) => destruct c
      end
    | leaf ].

Lemma quiet_refl (w : world) : quiet w w.
Proof. split; reflexivity. Qed.

Lemma quiet_trans (a b c : world) : quiet a b -> quiet b c -> quiet a c.
Proof. unfold quiet. intuition congruence. Qed.

Lemma quiet_next_status (w : world) : quiet w (next_status w).
Proof. split; reflexivity. Qed.

Lemma quiet_next_data (w : world) : quiet w (next_data w).
Proof. split; reflexivity. Qed.

Lemma quiet_outb (v p : Z) (w : world) : quiet w (log (Outb v p) w).
Proof.
  split; [reflexivity|]. cbn [trace log]. rewrite kernel_calls_app. apply app_nil_r.
Qed.

Lemma keeps_quiet_set_first_port (v : Z) : keeps quiet (set_first_port v).
Proof. intros w. split; reflexivity. Qed.

Lemma keeps_quiet_set_second_port (v : Z) : keeps quiet (set_second_port v).
Proof. intros w. split; reflexivity. Qed.

(** Brings the facts about [quiet] that the walk needs into the context. *)
Ltac quiet_walk :=
  pose proof quiet_refl; pose proof quiet_trans; pose proof quiet_next_status;
  pose proof quiet_next_data; pose proof quiet_outb;
  keeps_with ltac:(first [ apply keeps_quiet_set_first_port
                         | apply keeps_quiet_set_second_port ]).

Lemma configure_controller_quiet : keeps quiet configure_controller.
Proof.
  unfold configure_controller, disable_ports, flush_output_buffer, set_config_byte,
    self_test, probe_dual_channel, interface_check, enable_ports, reset_devices.
  quiet_walk.
Qed.

Lemma detect_devices_quiet : keeps quiet detect_devices.
Proof.
  unfold detect_devices, detect_first, detect_second, abandon_first, abandon_second.
  quiet_walk.
Qed.

(** ** All the ways through registration *)

Lemma write_dev2_frame (byte t : Z) (w w' : world) (r : Z) :
  write_dev2 byte t w = (Normal r, w') ->
  frame w w' /\ kernel_calls (trace w') = kernel_calls (trace w).
Proof.
  intros E. destruct (write_dev2_total byte t w) as (r0 & w0 & E0 & F & T).
  rewrite E in E0. injection E0 as <- <-. split; [exact F|].
  destruct T as [[_ ->]|[_ ->]]; rewrite kernel_calls_app; apply app_nil_r.
Qed.

Lemma register_first_skipped (w : world) :
  first_port w = 0 -> register_first w = (Normal tt, w).
Proof. intros H. unfold register_first. rewrite bind_get, H. reflexivity. Qed.

Lemma register_second_skipped (w : world) :
  second_port w = 0 -> register_second w = (Normal tt, w).
Proof. intros H. unfold register_second. rewrite bind_get, H. reflexivity. Qed.

(** Closes one way through a registration block: the world is the one
    computed, the frame holds, the calls are the ones listed. *)
Ltac one_way Fa Ka Tb :=
  eexists _, _, _; split; [reflexivity|]; split;
  [ unfold frame in *; cbn [env first_port second_port log] in *; intuition congruence
  | split;
    [ try rewrite Tb; try rewrite Ka; cbn [trace log];
      rewrite ?kernel_calls_app, <- ?app_assoc; cbn [kernel_calls filter is_kernel_call app];
      reflexivity
    | ] ].

Lemma register_first_cases (w : world) :
  first_port w <> 0 ->
  exists o w' calls,
    register_first w = (o, w') /\ frame w w' /\
    kernel_calls (trace w') = kernel_calls (trace w) ++ calls /\
    ((o = Normal tt /\
      calls = [InputAllocateDevice Dev1 true; InputRegisterDevice Dev1 0;
               RequestIrq I8042_IRQ1 Dev1 0]) \/
     (o = Return (- ENOMEM) /\ calls = [InputAllocateDevice Dev1 false]) \/
     (exists e, e <> 0 /\ e = register_ret (env w) Dev1 /\
                o = Goto (err_dev1_free e) /\
                calls = [InputAllocateDevice Dev1 true; InputRegisterDevice Dev1 e]) \/
     (exists r, r <> 0 /\ o = Goto (err_dev1_unreg (- EBUSY)) /\
                calls = [InputAllocateDevice Dev1 true; InputRegisterDevice Dev1 0;
                         RequestIrq I8042_IRQ1 Dev1 r]) \/
     (o = Goto (err_irq1_free (- ETIME)) /\
      calls = [InputAllocateDevice Dev1 true; InputRegisterDevice Dev1 0;
               RequestIrq I8042_IRQ1 Dev1 0])).
Proof.
  intros Hfp. unfold register_first. rewrite bind_get, (is_truthy _ Hfp).
  cbv beta iota zeta delta [when bind input_allocate_device input_register_device request_irq].
  cbn [env log].
  destruct (alloc_ok (env w) Dev1).
  2: { one_way I I I. right; left. split; reflexivity. }
  cbv beta iota delta [negb ret]. cbn [env log]. unfold truthy at 1.
  destruct (Z.eqb_spec (register_ret (env w) Dev1) 0) as [E0|N0].
  2: { cbv beta iota delta [negb goto]. one_way I I I.
       right; right; left. eexists. repeat split. exact N0. }
  rewrite E0. cbv beta iota delta [negb]. cbn [env log]. unfold truthy at 1.
  destruct (Z.eqb_spec (request_irq_ret (env w) I8042_IRQ1) 0) as [E1|N1].
  2: { cbv beta iota delta [negb goto]. one_way I I I.
       right; right; right; left. eexists. repeat split. exact N1. }
  rewrite E1. cbv beta iota delta [negb].
  match goal with |- context [write_dev1 ?b ?t ?x] =>
    destruct (write_dev1_total b t x) as (r & wa & E & _ & Tr);
    destruct (write_dev1_frame _ _ _ _ _ E) as (Fa & Ka); rewrite E
  end.
  destruct Tr as [[-> _]|[-> _]].
  2: { cbv beta iota delta [goto Z.ltb Z.compare]. one_way Fa Ka I.
       right; right; right; right. split; reflexivity. }
  cbv beta iota delta [Z.ltb Z.compare]. unfold await. cbv beta iota delta [bind].
  destruct (read_reg_total 250 wa) as (o & wb & Eb & Fb & Tb). rewrite Eb.
  destruct o as [b|].
  - one_way (conj Fa Fb) Ka Tb. left. split; reflexivity.
  - cbv beta iota delta [goto]. one_way (conj Fa Fb) Ka Tb.
    right; right; right; right. split; reflexivity.
Qed.

(** The label a failure of the second block jumps to. *)
Lemma goto_by_first_port_Goto {A : Type} (a b : label) (w : world) :
  @goto_by_first_port A a b w = (Goto (if truthy (first_port w) then a else b), w).
Proof.
  unfold goto_by_first_port. rewrite bind_get. destruct (truthy (first_port w)); reflexivity.
Qed.

Lemma register_second_cases (w : world) :
  second_port w <> 0 ->
  exists o w' calls,
    register_second w = (o, w') /\ frame w w' /\
    kernel_calls (trace w') = kernel_calls (trace w) ++ calls /\
    ((o = Normal tt /\
      calls = [InputAllocateDevice Dev2 true; InputRegisterDevice Dev2 0;
               RequestIrq I8042_IRQ12 Dev2 0]) \/
     (o = (if truthy (first_port w) then Goto (err_irq1_free (- ENOMEM))
           else Return (- ENOMEM)) /\
      calls = [InputAllocateDevice Dev2 false]) \/
     (exists e, e <> 0 /\ e = register_ret (env w) Dev2 /\
                o = Goto (if truthy (first_port w) then err_first_dev2_free e
                          else err_second_dev2_free e) /\
                calls = [InputAllocateDevice Dev2 true; InputRegisterDevice Dev2 e]) \/
     (exists r, r <> 0 /\
                o = Goto (if truthy (first_port w) then err_first_dev2_unreg (- EBUSY)
                          else err_second_dev2_unreg (- EBUSY)) /\
                calls = [InputAllocateDevice Dev2 true; InputRegisterDevice Dev2 0;
                         RequestIrq I8042_IRQ12 Dev2 r]) \/
     (o = Goto (if truthy (first_port w) then err_first_irq12_free (- ETIME)
                else err_second_irq12_free (- ETIME)) /\
      calls = [InputAllocateDevice Dev2 true; InputRegisterDevice Dev2 0;
               RequestIrq I8042_IRQ12 Dev2 0])).
Proof.
  intros Hsp. unfold register_second. rewrite bind_get, (is_truthy _ Hsp).
  cbv beta iota zeta delta [when bind input_allocate_device input_register_device request_irq].
  cbn [env log].
  destruct (alloc_ok (env w) Dev2).
  2: { cbv beta iota delta [negb get]. cbn [first_port log].
       destruct (truthy (first_port w)); one_way I I I; right; left; split; reflexivity. }
  cbv beta iota delta [negb ret]. cbn [env log]. unfold truthy at 1.
  destruct (Z.eqb_spec (register_ret (env w) Dev2) 0) as [E0|N0].
  2: { cbv beta iota delta [negb]. rewrite goto_by_first_port_Goto. one_way I I I.
       right; right; left. eexists. repeat split. exact N0. }
  rewrite E0. cbv beta iota delta [negb]. cbn [env log]. unfold truthy at 1.
  destruct (Z.eqb_spec (request_irq_ret (env w) I8042_IRQ12) 0) as [E1|N1].
  2: { cbv beta iota delta [negb]. rewrite goto_by_first_port_Goto. one_way I I I.
       right; right; right; left. eexists. repeat split. exact N1. }
  rewrite E1. cbv beta iota delta [negb].
  match goal with |- context [write_dev2 ?b ?t ?x] =>
    destruct (write_dev2_total b t x) as (r & wa & E & _ & Tr);
    destruct (write_dev2_frame _ _ _ _ _ E) as (Fa & Ka); rewrite E
  end.
  assert (Ffp : first_port wa = first_port w) by (apply Fa).
  destruct Tr as [[-> _]|[-> _]].
  2: { cbv beta iota delta [Z.ltb Z.compare]. rewrite goto_by_first_port_Goto, Ffp.
       one_way Fa Ka I. right; right; right; right. split; reflexivity. }
  cbv beta iota delta [Z.ltb Z.compare]. unfold await. cbv beta iota delta [bind].
  destruct (read_reg_total 250 wa) as (o & wb & Eb & Fb & Tb). rewrite Eb.
  assert (Ffb : first_port wb = first_port w) by (destruct Fb as (_ & -> & _); exact Ffp).
  destruct o as [b|].
  - one_way (conj Fa Fb) Ka Tb. left. split; reflexivity.
  - rewrite goto_by_first_port_Goto, Ffb. one_way (conj Fa Fb) Ka Tb.
    right; right; right; right. split; reflexivity.
Qed.

(** ** All the ways through [init_module] *)

Lemma exits_bind {A B : Type} (codes : list Z) (m : M A) (k : A -> M B) :
  (forall w, exits codes (m w)) -> (forall a w, exits codes (k a w)) ->
  forall w, exits codes (bind m k w).
Proof.
  intros Hm Hk w. unfold bind. specialize (Hm w).
  destruct (m w) as [[a|c|l] w']; [apply Hk | exact Hm | exact Hm].
Qed.

Lemma read_reg_exits (codes : list Z) (t : Z) (w : world) : exits codes (read_reg t w).
Proof. destruct (read_reg_total t w) as (r & w' & E & _). rewrite E. exact I. Qed.

Lemma write_dev1_exits (codes : list Z) (b t : Z) (w : world) :
  exits codes (write_dev1 b t w).
Proof. destruct (write_dev1_total b t w) as (r & w' & E & _). rewrite E. exact I. Qed.

Lemma write_dev2_exits (codes : list Z) (b t : Z) (w : world) :
  exits codes (write_dev2 b t w).
Proof. destruct (write_dev2_total b t w) as (r & w' & E & _). rewrite E. exact I. Qed.

(** The first phase ends normally or returns [-ETIME] or [-EINVAL]. *)
Lemma configure_controller_exits (w : world) :
  exits [- ETIME; - EINVAL] (configure_controller w).
Proof.
  revert w.
  unfold configure_controller, disable_ports, flush_output_buffer, set_config_byte,
    self_test, probe_dual_channel, interface_check, enable_ports, reset_devices.
  repeat first
    [ apply read_reg_exits | apply write_dev1_exits | apply write_dev2_exits
    | exact I
    | solve [intros; cbn; auto]
    | apply exits_bind; intros
    | match goal with
      | |- exits _ (await _ _) => unfold await
      | |- exits _ (when ?c _ _) => destruct c; unfold when
      | |- exits _ ((if ?c then _ else _) _) => destruct c
      | |- exits _ (match ?o with Some _ => _ | None => _ end _) => destruct o
      end ].
Qed.

Lemma detect_devices_normal (w : world) :
  exists w', detect_devices w = (Normal tt, w').
Proof.
  destruct (detect_first_cases w) as (w1 & E1 & _).
  destruct (detect_second_cases w1) as (w2 & E2 & _).
  assert (U1 : upto is_first_port_fail detect_first w = (Normal tt, w1))
    by (destruct E1 as [E|E]; [now apply upto_Normal | now apply (upto_Goto _ _ _ _ _ E)]).
  assert (U2 : upto is_second_port_fail detect_second w1 = (Normal tt, w2))
    by (destruct E2 as [E|E]; [now apply upto_Normal | now apply (upto_Goto _ _ _ _ _ E)]).
  exists w2. unfold detect_devices. now rewrite (bind_Normal _ _ _ _ _ U1).
Qed.
Ltac in_codes :=
  cbn [In]; repeat first [ left; (reflexivity || congruence) | right ].

(** Finishes one way through [init_module]: [chain] rewrites the kernel
    calls of the last world down to those of the first. *)
Ltac finish chain :=
  cbv beta iota zeta delta
    [leave landing from_err_first_irq12_free from_err_first_dev2_unreg from_err_irq1_free
     from_err_dev1_unreg from_err_second_irq12_free from_err_second_dev2_unreg
     from_err_dev1_free from_err_first_dev2_free from_err_second_dev2_free
     bind emit free_irq input_unregister_device input_free_device ret];
  cbn [fst snd env first_port second_port trace log];
  eexists; split; [congruence|]; split;
  [ rewrite ?kernel_calls_app; chain;
    match goal with |- context [kernel_calls (trace ?w)] =>
      generalize (kernel_calls (trace w)); intros K0
    end;
    cbn [kernel_calls filter is_kernel_call app];
    first [ symmetry; apply app_nil_r
          | rewrite <- ?app_assoc; apply f_equal; cbn [app]; reflexivity ]
  | split; [in_codes|]; split;
    [ intros Hne; try (now elim Hne); vm_compute; reflexivity
    | intros H0; try discriminate H0; try (now elim H0);
      unfold setup_calls;
      repeat match goal with T : truthy _ = _ |- _ => rewrite T end;
      reflexivity ] ].

Lemma init_module_summary (w0 : world) :
  exists calls,
    env (snd (init_module w0)) = env w0 /\
    kernel_calls (trace (snd (init_module w0))) = kernel_calls (trace w0) ++ calls /\
    In (fst (init_module w0))
       [0; - ETIME; - EINVAL; - ENOMEM; - EBUSY;
        register_ret (env w0) Dev1; register_ret (env w0) Dev2] /\
    (fst (init_module w0) <> 0 -> track pop [] calls = Some []) /\
    (fst (init_module w0) = 0 ->
     calls = setup_calls (first_port (snd (init_module w0))) I8042_IRQ1 Dev1 ++
             setup_calls (second_port (snd (init_module w0))) I8042_IRQ12 Dev2).
Proof.
  unfold init_module, init_module_body.
  pose proof (configure_controller_exits w0) as Xc.
  pose proof (configure_controller_quiet w0) as (Qce & Qck).
  destruct (configure_controller w0) as [[[]|c|l] wc] eqn:Ec;
    unfold exits in Xc; cbn [fst snd] in *; [| |contradiction].
  2: { rewrite (bind_Return _ _ _ _ _ Ec).
       destruct Xc as [<-|[<-|[]]]; finish ltac:(rewrite Qck). }
  rewrite (bind_Normal _ _ _ _ _ Ec).
  destruct (detect_devices_normal wc) as (w & Ed).
  pose proof (detect_devices_quiet wc) as (Qde & Qdk). rewrite Ed in Qde, Qdk.
  cbn [snd] in Qde, Qdk.
  rewrite (bind_Normal _ _ _ _ _ Ed). unfold register_devices.
  assert (Ee : env w = env w0) by congruence.
  assert (Ek : kernel_calls (trace w) = kernel_calls (trace w0)) by congruence.
  clear Ec Ed Qce Qck Qde Qdk Xc wc.
  destruct (Z.eq_dec (first_port w) 0) as [Z1|N1];
    destruct (Z.eq_dec (second_port w) 0) as [Z2|N2].
  - rewrite (bind_Normal _ _ _ _ _ (register_first_skipped w Z1)).
    rewrite (register_second_skipped w Z2).
    assert (T1 : truthy (first_port w) = false) by now rewrite Z1.
    assert (T2 : truthy (second_port w) = false) by now rewrite Z2.
    finish ltac:(rewrite Ek).
  - rewrite (bind_Normal _ _ _ _ _ (register_first_skipped w Z1)).
    destruct (register_second_cases w N2) as (o & w2 & calls & E2 & (Fe & Ff & Fs) & K2 & C).
    rewrite E2.
    assert (T1 : truthy (first_port w2) = false) by now rewrite Ff, Z1.
    assert (T2 : truthy (second_port w2) = true) by (rewrite Fs; now apply is_truthy).
    assert (T0 : truthy (first_port w) = false) by now rewrite Z1.
    rewrite T0 in C. clear T0.
    destruct C as [(-> & ->)|[(-> & ->)|[(e & He & Hr & -> & ->)|[(r & Hr & -> & ->)|(-> & ->)]]]];
      try (destruct e as [|p|p]; [now elim He| |]);
      try (destruct r as [|p|p]; [now elim Hr| |]);
      finish ltac:(rewrite K2, Ek).
  - destruct (register_first_cases w N1) as (o & w1 & calls & E1 & (Fe & Ff & Fs) & K1 & C).
    assert (T1 : truthy (first_port w1) = true) by (rewrite Ff; now apply is_truthy).
    assert (T2 : truthy (second_port w1) = false) by now rewrite Fs, Z2.
    assert (S2 : second_port w1 = 0) by congruence.
    destruct C as [(-> & ->)|[(-> & ->)|[(e & He & Hr & -> & ->)|[(r & Hr & -> & ->)|(-> & ->)]]]];
      try (destruct e as [|p|p]; [now elim He| |]);
      try (destruct r as [|p|p]; [now elim Hr| |]);
      first [ rewrite (bind_Normal _ _ _ _ _ E1), (register_second_skipped w1 S2)
            | rewrite (bind_Return _ _ _ _ _ E1)
            | rewrite (bind_Goto _ _ _ _ _ E1) ];
      finish ltac:(rewrite K1, Ek).
  - destruct (register_first_cases w N1) as (o & w1 & calls & E1 & (Fe & Ff & Fs) & K1 & C).
    assert (N2' : second_port w1 <> 0) by congruence.
    destruct (register_second_cases w1 N2')
      as (o2 & w2 & calls2 & E2 & (Fe2 & Ff2 & Fs2) & K2 & C2).
    assert (T0 : truthy (first_port w1) = true) by (rewrite Ff; now apply is_truthy).
    rewrite T0 in C2.
    assert (T1 : truthy (first_port w1) = true) by exact T0.
    assert (T2 : truthy (second_port w1) = true) by now apply is_truthy.
    assert (T3 : truthy (first_port w2) = true) by now rewrite Ff2.
    assert (T4 : truthy (second_port w2) = true) by (rewrite Fs2; now apply is_truthy).
    clear T0.
    destruct C as [(-> & ->)|[(-> & ->)|[(e & He & Hr & -> & ->)|[(r & Hr & -> & ->)|(-> & ->)]]]];
      try (destruct e as [|p|p]; [now elim He| |]);
      try (destruct r as [|p|p]; [now elim Hr| |]);
      first [ rewrite (bind_Normal _ _ _ _ _ E1), E2
            | rewrite (bind_Return _ _ _ _ _ E1)
            | rewrite (bind_Goto _ _ _ _ _ E1) ];
      try (finish ltac:(rewrite K1, Ek)).
    destruct C2 as [(-> & ->)|[(-> & ->)|[(e & He & Hr & -> & ->)|[(r & Hr & -> & ->)|(-> & ->)]]]];
      try (destruct e as [|p|p]; [now elim He| |]);
      try (destruct r as [|p|p]; [now elim Hr| |]);
      finish ltac:(rewrite K2, K1, Ek).
Qed.

(** ** Bring-up as a whole *)

(** X7. [init_module] returns 0, or one of [-ETIME], [-EINVAL], [-ENOMEM],
    [-EBUSY], or the error [input_register_device] gave for one of the two
    devices: nothing else. *)
Theorem init_module_return_values (w0 : world) :
  In (fst (init_module w0))
     [0; - ETIME; - EINVAL; - ENOMEM; - EBUSY;
      register_ret (env w0) Dev1; register_ret (env w0) Dev2].
Proof.
  destruct (init_module_summary w0) as (calls & _ & _ & H & _). exact H.
Qed.

(** X8. A failed bring-up leaks nothing: when [init_module] returns an
    error, every device it allocated or registered and every interrupt line
    it bound has been given back before it returns, each release being of
    the resource acquired last among those still held. *)
Theorem failed_init_releases_everything (w0 : world) :
  kernel_calls (trace w0) = [] ->
  fst (init_module w0) <> 0 ->
  track pop [] (kernel_calls (trace (snd (init_module w0)))) = Some [].
Proof.
  intros H0 Hne.
  destruct (init_module_summary w0) as (calls & _ & K & _ & Hf & _).
  rewrite K, H0. now apply Hf.
Qed.

(** Both keyboards come up, but line 12 is busy: both devices are
    unregistered and line 1 is freed again. *)
Lemma failed_init_releases_everything_witness :
  fst (init_module (fresh (line12_busy (two_keyboards ++ [0xFA])))) = - EBUSY /\
  kernel_calls (trace (snd (init_module (fresh (line12_busy (two_keyboards ++ [0xFA])))))) =
  [InputAllocateDevice Dev1 true; InputRegisterDevice Dev1 0; RequestIrq I8042_IRQ1 Dev1 0;
   InputAllocateDevice Dev2 true; InputRegisterDevice Dev2 0;
   RequestIrq I8042_IRQ12 Dev2 (- EBUSY);
   InputUnregisterDevice Dev2; FreeIrq I8042_IRQ1 Dev1; InputUnregisterDevice Dev1] /\
  track pop [] (kernel_calls
                  (trace (snd (init_module (fresh (line12_busy (two_keyboards ++ [0xFA]))))))) =
  Some [].
Proof.
  split; [vm_compute; reflexivity|]. split; [vm_compute; reflexivity|].
  apply (failed_init_releases_everything (fresh (line12_busy (two_keyboards ++ [0xFA])))).
  - reflexivity.
  - vm_compute. discriminate.
Defined.

(** X9. After a successful bring-up the driver holds, for each port whose
    class is not undefined, a registered device and the port's interrupt
    line, and nothing for a port that is undefined: the kernel was asked to
    allocate, register and bind for exactly those ports, the first port
    first. *)
Theorem successful_init_holds_classified_ports (w0 : world) :
  kernel_calls (trace w0) = [] ->
  fst (init_module w0) = 0 ->
  let w := snd (init_module w0) in
  kernel_calls (trace w) =
  setup_calls (first_port w) I8042_IRQ1 Dev1 ++ setup_calls (second_port w) I8042_IRQ12 Dev2
  /\
  track pop [] (kernel_calls (trace w)) =
  Some (setup_held (second_port w) I8042_IRQ12 Dev2 ++ setup_held (first_port w) I8042_IRQ1 Dev1).
Proof.
  intros H0 Hz w.
  destruct (init_module_summary w0) as (calls & _ & K & _ & _ & Hs).
  fold w in K, Hs. rewrite K, H0, (Hs Hz). split; [reflexivity|].
  unfold setup_calls, setup_held.
  destruct (truthy (first_port w)); destruct (truthy (second_port w)); reflexivity.
Qed.

Lemma successful_init_holds_classified_ports_witness :
  fst (init_module (fresh (steady (two_keyboards ++ [0xFA])))) = 0 /\
  track pop [] (kernel_calls
                  (trace (snd (init_module (fresh (steady (two_keyboards ++ [0xFA]))))))) =
  Some [Bound I8042_IRQ12 Dev2; Registered Dev2; Bound I8042_IRQ1 Dev1; Registered Dev1].
Proof.
  split; [vm_compute; reflexivity|].
  assert (H := proj2 (successful_init_holds_classified_ports
                        (fresh (steady (two_keyboards ++ [0xFA])))
                        eq_refl ltac:(vm_compute; reflexivity))).
  vm_compute in H. vm_compute. exact H.
Defined.

(** X10. Bring-up succeeds with no device at all: when the controller is
    configured and detection leaves both ports undefined, [init_module]
    returns 0 without allocating, registering or binding anything. *)
Theorem init_succeeds_without_devices (w0 wc w : world) :
  configure_controller w0 = (Normal tt, wc) ->
  detect_devices wc = (Normal tt, w) ->
  first_port w = UNDEFINED ->
  second_port w = UNDEFINED ->
  init_module w0 = (0, w).
Proof.
  intros Ec Ed Z1 Z2. unfold init_module, init_module_body.
  rewrite (bind_Normal _ _ _ _ _ Ec), (bind_Normal _ _ _ _ _ Ed). unfold register_devices.
  rewrite (bind_Normal _ _ _ _ _ (register_first_skipped w Z1)).
  rewrite (register_second_skipped w Z2). reflexivity.
Qed.

(** Two devices that do not acknowledge the identify command. *)
Lemma init_succeeds_without_devices_witness :
  fst (init_module (fresh (steady two_strangers))) = 0 /\
  kernel_calls (trace (snd (init_module (fresh (steady two_strangers))))) = [] /\
  first_port (snd (init_module (fresh (steady two_strangers)))) = UNDEFINED /\
  second_port (snd (init_module (fresh (steady two_strangers)))) = UNDEFINED.
Proof.
  set (w0 := fresh (steady two_strangers)).
  pose (wc := after configure_controller w0).
  pose (w := after detect_devices wc).
  rewrite (init_succeeds_without_devices w0 wc w
             ltac:(vm_compute; reflexivity) ltac:(vm_compute; reflexivity)
             ltac:(vm_compute; reflexivity) ltac:(vm_compute; reflexivity)).
  repeat split; vm_compute; reflexivity.
Defined.

Lemma cleanup_module_calls (w : world) :
  kernel_calls (trace (snd (cleanup_module w))) =
  kernel_calls (trace w) ++
  (if truthy (first_port w)
   then [FreeIrq I8042_IRQ1 Dev1; InputUnregisterDevice Dev1] else []) ++
  (if truthy (second_port w)
   then [FreeIrq I8042_IRQ12 Dev2; InputUnregisterDevice Dev2] else []).
Proof.
  unfold cleanup_module. rewrite bind_get.
  destruct (truthy (first_port w)) eqn:T1;
    cbv beta iota delta [when bind free_irq input_unregister_device emit ret get];
    cbn [second_port log]; destruct (truthy (second_port w));
    cbn [snd trace log]; rewrite ?kernel_calls_app, <- ?app_assoc; cbn [kernel_calls filter is_kernel_call app];
    rewrite ?app_nil_r; reflexivity.
Qed.

(** X11. Unloading after a successful bring-up gives back everything the
    driver holds: [cleanup_module] frees the line and unregisters the device
    of each port that is not undefined, and of no other.  It starts with the
    first port, so with two devices it does not release in reverse order of
    acquisition, unlike the error paths of [init_module]. *)
Theorem cleanup_after_init_releases_everything (w0 : world) :
  kernel_calls (trace w0) = [] ->
  fst (init_module w0) = 0 ->
  let w := snd (init_module w0) in
  track drop [] (kernel_calls (trace (snd (cleanup_module w)))) = Some [] /\
  (first_port w <> UNDEFINED -> second_port w <> UNDEFINED ->
   track pop [] (kernel_calls (trace (snd (cleanup_module w)))) = None).
Proof.
  intros H0 Hz w.
  destruct (init_module_summary w0) as (calls & _ & K & _ & _ & Hs).
  fold w in K, Hs. rewrite cleanup_module_calls, K, H0, (Hs Hz). unfold setup_calls. split.
  - destruct (truthy (first_port w)); destruct (truthy (second_port w)); reflexivity.
  - intros N1 N2. rewrite (is_truthy _ N1), (is_truthy _ N2). reflexivity.
Qed.

Lemma cleanup_after_init_releases_everything_witness :
  kernel_calls
    (trace (snd (cleanup_module (snd (init_module (fresh (steady (two_keyboards ++ [0xFA])))))))) =
  [InputAllocateDevice Dev1 true; InputRegisterDevice Dev1 0; RequestIrq I8042_IRQ1 Dev1 0;
   InputAllocateDevice Dev2 true; InputRegisterDevice Dev2 0; RequestIrq I8042_IRQ12 Dev2 0;
   FreeIrq I8042_IRQ1 Dev1; InputUnregisterDevice Dev1;
   FreeIrq I8042_IRQ12 Dev2; InputUnregisterDevice Dev2] /\
  track drop []
    (kernel_calls
       (trace (snd (cleanup_module
                      (snd (init_module (fresh (steady (two_keyboards ++ [0xFA]))))))))) =
  Some [].
Proof.
  split; [vm_compute; reflexivity|].
  apply (cleanup_after_init_releases_everything (fresh (steady (two_keyboards ++ [0xFA])))).
  - reflexivity.
  - vm_compute. reflexivity.
Defined.

(** ** The controller phase *)

Lemma bind_bind_Normal {A B C : Type} (m : M A) (k : A -> M B) (g : B -> M C)
    (w w' : world) (b : B) :
  bind m k w = (Normal b, w') ->
  bind m (fun a => bind (k a) g) w = g b w'.
Proof.
  unfold bind. destruct (m w) as [[a|c|l] w1]; intros H; try discriminate H.
  now rewrite H.
Qed.

Lemma bind_Normal_inv {A B : Type} (m : M A) (k : A -> M B) (w w' : world) (b : B) :
  bind m k w = (Normal b, w') ->
  exists a w1, m w = (Normal a, w1) /\ k a w1 = (Normal b, w').
Proof.
  unfold bind. destruct (m w) as [[a|c|l] w1]; intros H; try discriminate H.
  now exists a, w1.
Qed.

(** X12. A failed self-test ends bring-up at once: when the controller
    answers the self-test command with anything but 0x55, [init_module]
    returns [-EINVAL] right after that read, having asked nothing of the
    kernel. *)
Theorem failed_self_test_is_fatal (w0 w1 w2 : world) (d : bool) (b : Z) :
  (disable_ports ;; flush_output_buffer ;; set_config_byte) w0 = (Normal d, w1) ->
  read_reg 250 (log (Outb I8042_SELF_TEST I8042_COMMAND_REG) w1) = (Normal (Some b), w2) ->
  b <> 0x55 ->
  init_module w0 = (- EINVAL, w2) /\
  kernel_calls (trace w2) = kernel_calls (trace w0).
Proof.
  intros Hp Hr Hb.
  assert (Ec : configure_controller w0 = (Return (- EINVAL), w2)).
  { unfold configure_controller.
    apply bind_Normal_inv in Hp. destruct Hp as ([] & wa & Ea & Hp).
    rewrite (bind_Normal _ _ _ _ _ Ea).
    rewrite (bind_bind_Normal _ _ _ _ _ _ Hp). cbv beta.
    apply bind_Return. unfold self_test. rewrite bind_outb. run Hr.
    destruct (Z.eqb_spec b 0x55) as [?|_]; [contradiction|]. reflexivity. }
  split.
  - unfold init_module, init_module_body. rewrite (bind_Return _ _ _ _ _ Ec). reflexivity.
  - pose proof (configure_controller_quiet w0) as (_ & K). now rewrite Ec in K.
Qed.

(** The self-test answers 0xFC. *)
Lemma failed_self_test_is_fatal_witness :
  fst (init_module (fresh (steady [0x00; 0x45; 0x00; 0xFC]))) = - EINVAL /\
  trace (snd (init_module (fresh (steady [0x00; 0x45; 0x00; 0xFC])))) =
  [Outb I8042_DISABLE_FIRST_PS2_PORT I8042_COMMAND_REG;
   Outb I8042_DISABLE_SECOND_PS2_PORT I8042_COMMAND_REG;
   Outb I8042_READ_CONFIG_BYTE I8042_COMMAND_REG;
   Outb I8042_READ_CONFIG_BYTE I8042_COMMAND_REG;
   Outb 0x04 I8042_DATA_REG;
   Outb I8042_WRITE_CONFIG_BYTE I8042_COMMAND_REG;
   Outb I8042_SELF_TEST I8042_COMMAND_REG].
Proof.
  set (w0 := fresh (steady [0x00; 0x45; 0x00; 0xFC])).
  pose (w1 := after (disable_ports ;; flush_output_buffer ;; set_config_byte) w0).
  pose (w2 := after (read_reg 250) (log (Outb I8042_SELF_TEST I8042_COMMAND_REG) w1)).
  rewrite (proj1 (failed_self_test_is_fatal w0 w1 w2 false 0xFC
                    ltac:(vm_compute; reflexivity) ltac:(vm_compute; reflexivity)
                    ltac:(discriminate))).
  split; vm_compute; reflexivity.
Defined.

Lemma frame_next_status (w : world) : frame w (next_status w).
Proof. repeat split. Qed.

Lemma frame_next_data (w : world) : frame w (next_data w).
Proof. repeat split. Qed.

Lemma frame_outb (v p : Z) (w : world) : frame w (log (Outb v p) w).
Proof. repeat split. Qed.

(** Brings the facts about [frame] that the walk needs into the context. *)
Ltac frame_walk :=
  pose proof frame_refl; pose proof frame_trans; pose proof frame_next_status;
  pose proof frame_next_data; pose proof frame_outb;
  keeps_with fail.

Lemma before_interface_check_frame :
  keeps frame (disable_ports ;; flush_output_buffer ;; d <- set_config_byte ;;
               self_test ;; probe_dual_channel d).
Proof.
  unfold disable_ports, flush_output_buffer, set_config_byte, self_test, probe_dual_channel.
  frame_walk.
Qed.

Lemma after_interface_check_frame : keeps frame (enable_ports ;; reset_devices).
Proof. unfold enable_ports, reset_devices. frame_walk. Qed.

(** The interface test, when bring-up goes on after it. *)
Lemma interface_check_ports (d : bool) (w w' : world) :
  first_port w = 0 -> second_port w = 0 ->
  interface_check d w = (Normal tt, w') ->
  (first_port w' = 1 \/ second_port w' = 1) /\
  (first_port w' = 0 \/ first_port w' = 1) /\
  (second_port w' = 0 \/ second_port w' = 1) /\
  (d = false -> second_port w' = 0).
Proof.
  intros Hf Hs. unfold interface_check. exec.
  destruct (read_reg_total 250 (log (Outb I8042_FIRST_PORT_INTERFACE_TEST I8042_COMMAND_REG) w))
    as (o1 & w1 & E1 & (_ & F1 & S1) & _).
  cbn [first_port second_port log] in F1, S1. rewrite E1.
  destruct o1 as [b1|]; [|discriminate]. exec.
  destruct d.
  - destruct (b1 =? 0x00); exec;
      match goal with |- context [read_reg 250 ?x] =>
        destruct (read_reg_total 250 x) as (o2 & w2 & E2 & (_ & F2 & S2) & _); rewrite E2
      end;
      cbn [first_port second_port log with_first_port] in F2, S2;
      (destruct o2 as [b2|]; [|discriminate]); exec;
      destruct (b2 =? 0x00); exec;
      cbn [first_port second_port with_first_port with_second_port];
      rewrite ?F2, ?S2, ?F1, ?S1, ?Hf, ?Hs; cbn [truthy Z.eqb negb andb];
      intros H; try discriminate H; injection H as <-;
      cbn [first_port second_port with_first_port with_second_port];
      rewrite ?F2, ?S2, ?F1, ?S1, ?Hf, ?Hs; intuition discriminate.
  - destruct (b1 =? 0x00); exec;
      cbn [first_port second_port with_first_port];
      rewrite ?F1, ?S1, ?Hf, ?Hs; cbn [truthy Z.eqb negb andb];
      intros H; try discriminate H; injection H as <-;
      cbn [first_port second_port with_first_port];
      rewrite ?F1, ?S1, ?Hf, ?Hs; intuition discriminate.
Qed.

(** X13. When the controller phase of a freshly loaded module completes,
    each of the two globals is 0 or 1 and at least one of them is 1: bring-up
    only goes on to detection with a port that passed its interface test. *)
Theorem configured_controller_has_usable_port (w w' : world) :
  first_port w = 0 -> second_port w = 0 ->
  configure_controller w = (Normal tt, w') ->
  (first_port w' = 1 \/ second_port w' = 1) /\
  (first_port w' = 0 \/ first_port w' = 1) /\
  (second_port w' = 0 \/ second_port w' = 1).
Proof.
  intros Hf Hs Hc.
  assert (Hc' : bind (disable_ports ;; flush_output_buffer ;; d <- set_config_byte ;;
                      self_test ;; probe_dual_channel d)
                  (fun d => interface_check d ;; enable_ports ;; reset_devices) w
                = (Normal tt, w')).
  { rewrite <- Hc. unfold configure_controller, bind.
    repeat match goal with
           | |- context [match ?m ?x with _ => _ end] =>
               match m with
               | disable_ports => idtac | flush_output_buffer => idtac
               | set_config_byte => idtac | self_test => idtac
               | probe_dual_channel _ => idtac
               end;
               destruct (m x) as [[?|?|?] ?]
           end; reflexivity. }
  apply bind_Normal_inv in Hc'. destruct Hc' as (d & wa & Ea & Hc').
  apply bind_Normal_inv in Hc'. destruct Hc' as ([] & wb & Eb & Ec).
  pose proof (before_interface_check_frame w) as (_ & Fa & Sa). rewrite Ea in Fa, Sa.
  pose proof (after_interface_check_frame wb) as (_ & Fb & Sb). rewrite Ec in Fb, Sb.
  cbn [snd] in *.
  destruct (interface_check_ports d wa wb) as (H1 & H2 & H3 & _); try congruence.
  rewrite Fb, Sb. auto.
Qed.

(** A single-channel controller whose first port answers 0x00. *)
Lemma configured_controller_has_usable_port_witness :
  let w' := after configure_controller
              (fresh (steady [0x00; 0x45; 0x00; 0x55; 0x00; 0x45; 0xFA; 0xFA])) in
  (first_port w' = 1 \/ second_port w' = 1) /\
  (first_port w' = 0 \/ first_port w' = 1) /\
  (second_port w' = 0 \/ second_port w' = 1).
Proof.
  exact (configured_controller_has_usable_port
           (fresh (steady [0x00; 0x45; 0x00; 0x55; 0x00; 0x45; 0xFA; 0xFA]))
           (after configure_controller
              (fresh (steady [0x00; 0x45; 0x00; 0x55; 0x00; 0x45; 0xFA; 0xFA])))
           eq_refl eq_refl ltac:(vm_compute; reflexivity)).
Defined.

(** X14. Enabling the ports, once the configuration byte [c] has been
    read: the enable command goes to each usable port and to no other, then
    one byte is written to the data register, followed by the "write config
    byte" command.  That byte has bit 6 set, bit 0 set for a usable first
    port and bit 1 for a usable second port; the interrupt bit of an unusable
    port and all other bits are those of [c]. *)
Theorem enable_ports_config_byte (w w1 : world) (c : Z) :
  read_reg 250 (log (Outb I8042_READ_CONFIG_BYTE I8042_COMMAND_REG) w)
  = (Normal (Some c), w1) ->
  exists v w',
    enable_ports w = (Normal tt, w') /\
    trace w' =
    trace w ++
    [Outb I8042_READ_CONFIG_BYTE I8042_COMMAND_REG] ++
    (if truthy (first_port w) then [Outb I8042_ENABLE_FIRST_PS2_PORT I8042_COMMAND_REG]
     else []) ++
    (if truthy (second_port w) then [Outb I8042_ENABLE_SECOND_PS2_PORT I8042_COMMAND_REG]
     else []) ++
    [Outb v I8042_DATA_REG; Outb I8042_WRITE_CONFIG_BYTE I8042_COMMAND_REG] /\
    Z.testbit v 6 = true /\
    Z.testbit v 0 = truthy (first_port w) || Z.testbit c 0 /\
    Z.testbit v 1 = truthy (second_port w) || Z.testbit c 1 /\
    (forall n, 0 <= n -> n <> 0 -> n <> 1 -> n <> 6 -> Z.testbit v n = Z.testbit c n).
Proof.
  intros E1.
  destruct (read_reg_frame _ _ _ _ E1) as ((_ & F1 & S1) & T1).
  cbn [first_port second_port trace log] in F1, S1, T1.
  unfold enable_ports. exec. rewrite E1. exec.
  cbn [first_port second_port log]. rewrite F1.
  destruct (truthy (first_port w)); exec; cbn [first_port second_port log]; rewrite S1;
    destruct (truthy (second_port w)); exec;
    eexists _, _; (split; [reflexivity|]); cbn [trace log]; rewrite T1, <- !app_assoc;
    (split; [reflexivity|]);
    repeat split;
    try (intros n Hn N0 N1 N6);
    rewrite ?Z.setbit_eqb by lia;
    repeat match goal with
           | |- context [?a =? ?b] =>
               destruct (Z.eqb_spec a b); try lia
           end;
    cbn [orb]; try reflexivity; try lia.
Qed.

(** First port usable, second not, configuration byte 0x04: the byte
    written is 0x45. *)
Lemma enable_ports_config_byte_witness :
  exists v w',
    enable_ports (mkWorld (steady [0x04]) 0 0 [] 1 0) = (Normal tt, w') /\
    trace w' = [Outb I8042_READ_CONFIG_BYTE I8042_COMMAND_REG;
                Outb I8042_ENABLE_FIRST_PS2_PORT I8042_COMMAND_REG;
                Outb v I8042_DATA_REG; Outb I8042_WRITE_CONFIG_BYTE I8042_COMMAND_REG] /\
    Z.testbit v 6 = true /\ Z.testbit v 0 = true /\ Z.testbit v 1 = false.
Proof.
  destruct (enable_ports_config_byte
              (mkWorld (steady [0x04]) 0 0 [] 1 0)
              (after (read_reg 250)
                 (log (Outb I8042_READ_CONFIG_BYTE I8042_COMMAND_REG)
                    (mkWorld (steady [0x04]) 0 0 [] 1 0)))
              0x04 ltac:(vm_compute; reflexivity))
    as (v & w' & E & T & B6 & B0 & B1 & _).
  exists v, w'. repeat split; assumption.
Defined.

(** X15. Until both detection blocks are done the driver only talks to the
    controller: whatever the controller and the devices answer, and however
    these two phases end, nothing is asked of the kernel. *)
Theorem no_kernel_call_before_registration (w : world) :
  kernel_calls (trace (snd ((configure_controller ;; detect_devices) w))) =
  kernel_calls (trace w).
Proof.
  assert (H : keeps quiet (configure_controller ;; detect_devices)).
  { apply keeps_bind; [exact quiet_trans | exact configure_controller_quiet |].
    intros _. exact detect_devices_quiet. }
  apply H.
Qed.

(** X16. After the acknowledged identify command, the answers 0x00, 0x03
    and 0x04 make either port a mouse. *)
Theorem mouse_identification (w w5 : world) (id : Z) :
  id = 0x00 \/ id = 0x03 \/ id = 0x04 ->
  (first_port w <> 0 -> identify_reply write_dev1 w id w5 ->
   upto is_first_port_fail detect_first w = (Normal tt, with_first_port MOUSE w5))
  /\
  (second_port w <> 0 -> identify_reply write_dev2 w id w5 ->
   upto is_second_port_fail detect_second w = (Normal tt, with_second_port MOUSE w5)).
Proof.
  intros Hid. split; intros Hp Hr; apply upto_Normal.
  - rewrite (detect_first_reply w w5 _ Hp Hr). destruct Hid as [->|[->| ->]]; reflexivity.
  - rewrite (detect_second_reply w w5 _ Hp Hr). destruct Hid as [->|[->| ->]]; reflexivity.
Qed.

(** A wheel mouse on the second port. *)
Lemma mouse_identification_witness :
  upto is_second_port_fail detect_second (both_usable (steady [0xFA; 0xFA; 0x03])) =
  (Normal tt,
   with_second_port MOUSE
     (after (write_dev2 I8042_DISABLE_SCANNING 250 ;; read_reg 250 ;;
             write_dev2 I8042_IDENTIFY 250 ;; read_reg 250 ;; read_reg 250)
        (both_usable (steady [0xFA; 0xFA; 0x03])))).
Proof.
  pose (w := both_usable (steady [0xFA; 0xFA; 0x03])).
  pose (w1 := after (write_dev2 I8042_DISABLE_SCANNING 250) w).
  pose (w2 := after (read_reg 250) w1).
  pose (w3 := after (write_dev2 I8042_IDENTIFY 250) w2).
  pose (w4 := after (read_reg 250) w3).
  pose (w5 := after (read_reg 250) w4).
  apply (proj2 (mouse_identification w w5 0x03 ltac:(right; left; reflexivity))).
  - discriminate.
  - exists w1, w2, w3, w4, 0xFA. repeat split; vm_compute; reflexivity.
Defined.

(** ** The classification stays a classification *)

Lemma stays_classified_refl (w : world) : stays_classified w w.
Proof. intros H. exact H. Qed.

Lemma stays_classified_trans (a b c : world) :
  stays_classified a b -> stays_classified b c -> stays_classified a c.
Proof. unfold stays_classified. auto. Qed.

Lemma stays_classified_frame (w w' : world) : frame w w' -> stays_classified w w'.
Proof. intros (_ & F & S) (H1 & H2). split; [rewrite F | rewrite S]; assumption. Qed.

Lemma stays_classified_log (a : action) (w : world) : stays_classified w (log a w).
Proof. intros H. exact H. Qed.

Lemma keeps_classified_emit (a : action) : keeps stays_classified (emit a).
Proof. intros w. apply stays_classified_log. Qed.

Lemma keeps_classified_set_first_port (v : Z) :
  v = UNDEFINED \/ v = KEYBOARD \/ v = MOUSE -> keeps stays_classified (set_first_port v).
Proof. intros Hv w (_ & H2). split; [exact Hv | exact H2]. Qed.

Lemma keeps_classified_set_second_port (v : Z) :
  v = UNDEFINED \/ v = KEYBOARD \/ v = MOUSE -> keeps stays_classified (set_second_port v).
Proof. intros Hv w (H1 & _). split; [exact H1 | exact Hv]. Qed.

Lemma keeps_classified_allocate (d : input_dev) : keeps stays_classified (input_allocate_device d).
Proof. intros w H. exact H. Qed.

Lemma keeps_classified_register (d : input_dev) : keeps stays_classified (input_register_device d).
Proof. intros w H. exact H. Qed.

Lemma keeps_classified_request_irq (irq : Z) (d : input_dev) :
  keeps stays_classified (request_irq irq d).
Proof. intros w H. exact H. Qed.

Ltac classified_walk :=
  pose proof stays_classified_refl; pose proof stays_classified_trans;
  pose proof (fun w => stays_classified_frame w _ (frame_next_status w));
  pose proof (fun w => stays_classified_frame w _ (frame_next_data w));
  pose proof (fun v p w => stays_classified_log (Outb v p) w);
  keeps_with ltac:(first
    [ apply keeps_classified_set_first_port; cbv; auto
    | apply keeps_classified_set_second_port; cbv; auto
    | apply keeps_classified_allocate
    | apply keeps_classified_register
    | apply keeps_classified_request_irq
    | apply keeps_classified_emit ]).

Lemma init_module_body_classified : keeps stays_classified init_module_body.
Proof.
  unfold init_module_body, configure_controller, detect_devices, register_devices,
    disable_ports, flush_output_buffer, set_config_byte,
    self_test, probe_dual_channel, interface_check, enable_ports, reset_devices,
    detect_first, detect_second, abandon_first, abandon_second,
    register_first, register_second, goto_by_first_port.
  classified_walk.
Qed.

Lemma leave_classified (r : outcome unit * world) :
  classified (snd r) -> classified (snd (leave r)).
Proof. destruct r as [[[]|c|[]] w]; intros H; exact H. Qed.

(** X17. Bring-up and unload keep the two globals within the three device
    classes: if each holds [UNDEFINED], [KEYBOARD] or [MOUSE] before (as in a
    freshly loaded module, where both are 0), so it does after
    [init_module], however it ends, and after [cleanup_module]. *)
Theorem classification_is_kept (w : world) :
  classified w ->
  classified (snd (init_module w)) /\ classified (snd (cleanup_module w)).
Proof.
  intros H. split.
  - unfold init_module. apply leave_classified. now apply init_module_body_classified.
  - revert H. change (stays_classified w (snd (cleanup_module w))). revert w.
    change (keeps stays_classified cleanup_module).
    unfold cleanup_module, free_irq, input_unregister_device. classified_walk.
Qed.

Lemma classification_is_kept_witness :
  classified (snd (init_module (fresh (steady (two_keyboards ++ [0xFA]))))) /\
  classified (snd (cleanup_module (fresh (steady (two_keyboards ++ [0xFA]))))).
Proof.
  apply (classification_is_kept (fresh (steady (two_keyboards ++ [0xFA])))).
  split; left; reflexivity.
Defined.

(** ** A bound on the waiting *)

Lemma within_weaken {A : Type} (a b : nat) (m : M A) :
  within a m -> (a <= b)%nat -> within b m.
Proof.
  intros H L w. destruct (H w) as (E & N). split; [exact E|]. nia.
Qed.

Lemma within_bind {A B : Type} (a b c : nat) (m : M A) (k : A -> M B) :
  within a m -> (forall x, within b (k x)) -> (a + b)%nat = c -> within c (bind m k).
Proof.
  intros Hm Hk <- w. unfold bind. destruct (Hm w) as (E & N).
  destruct (m w) as [[x|r|l] w1]; cbn [snd] in *.
  - destruct (Hk x w1) as (E2 & N2). rewrite E in *. split; [congruence|]. nia.
  - split; [exact E|]. nia.
  - split; [exact E|]. nia.
Qed.

Lemma within_free {A : Type} (m : M A) :
  (forall w, env (snd (m w)) = env w /\ n_status (snd (m w)) = n_status w) ->
  forall k, within k m.
Proof. intros H k w. destruct (H w) as (E & N). split; [exact E|]. lia. Qed.

Lemma within_when (k : nat) (c : bool) (m : M unit) : within k m -> within k (when c m).
Proof.
  intros H. destruct c; [exact H|]. apply within_free. intros w. split; reflexivity.
Qed.

Lemma within_upto (k : nat) (here : label -> bool) (m : M unit) :
  within k m -> within k (upto here m).
Proof.
  intros H w. unfold upto. specialize (H w).
  destruct (m w) as [[a|c|l] w1]; cbn [snd] in *; [exact H|exact H|].
  destruct (here l); exact H.
Qed.

Lemma read_reg_loop_polls (n : nat) (w : world) :
  env (snd (read_reg_loop n w)) = env w /\
  (n_status (snd (read_reg_loop n w)) <= n_status w + n)%nat.
Proof.
  revert w. induction n as [|n IH]; intros w.
  - split; [reflexivity | cbn; lia].
  - rewrite read_reg_loop_step. destruct (Z.testbit (status_byte w 0) 0).
    + split; [reflexivity | cbn; lia].
    + destruct (IH (next_status w)) as (E & N). split; [exact E|]. cbn in N. lia.
Qed.

Lemma write_loop_polls (n : nat) (byte : Z) (w : world) :
  env (snd (write_loop n byte w)) = env w /\
  (n_status (snd (write_loop n byte w)) <= n_status w + n)%nat.
Proof.
  revert w. induction n as [|n IH]; intros w.
  - split; [reflexivity | cbn; lia].
  - rewrite write_loop_step. destruct (Z.testbit (status_byte w 0) 1).
    + destruct (IH (next_status w)) as (E & N). split; [exact E|]. cbn in N. lia.
    + split; [reflexivity | cbn; lia].
Qed.

Lemma within_read_reg : within 1 (read_reg 250).
Proof.
  intros w. destruct (read_reg_loop_polls (polls (env w) 250) w) as (E & N).
  split; [exact E|]. unfold read_reg. lia.
Qed.

Lemma within_write_dev1 (byte : Z) : within 1 (write_dev1 byte 250).
Proof.
  intros w. destruct (write_loop_polls (polls (env w) 250) byte w) as (E & N).
  split; [exact E|]. unfold write_dev1. lia.
Qed.

Lemma within_write_dev2 (byte : Z) : within 1 (write_dev2 byte 250).
Proof.
  intros w. unfold write_dev2. rewrite bind_outb.
  destruct (write_loop_polls (polls (env w) 250) byte
              (log (Outb I8042_WRITE_SECOND_PS2_INPUT_BUFFER I8042_COMMAND_REG) w)) as (E & N).
  split; [exact E|]. cbn [env log n_status] in *. lia.
Qed.

(** A statement that does not poll. *)
Ltac polls_nothing :=
  apply within_free; intros ?; split; reflexivity.

(** Walks through a sequence of statements within a budget of waits,
    giving each statement the smallest share that it needs. *)
Ltac within_walk :=
  cbv beta;
  lazymatch goal with
  | |- within ?n (bind ?m ?k) =>
      let share a :=
        let b := eval compute in (n - a)%nat in
        apply (within_bind a b n); [ | | reflexivity];
        [solve [within_walk] | intros ?; within_walk] in
      first [ share 0%nat | share 1%nat | share 2%nat | share 3%nat
            | share 4%nat | share 5%nat | share 6%nat | share 12%nat ]
  | |- within _ (when _ _) => apply within_when; within_walk
  | |- within _ (upto _ _) => apply within_upto; within_walk
  | |- within _ (await _) => unfold await; within_walk
  | |- within _ (if ?c then _ else _) => destruct c; within_walk
  | |- within _ (match ?o with Some _ => _ | None => _ end) => destruct o; within_walk
  | |- within _ (let _ := _ in _) => cbv zeta; within_walk
  | |- within _ (read_reg 250) => apply (within_weaken 1); [apply within_read_reg | lia]
  | |- within _ (write_dev1 _ 250) => apply (within_weaken 1); [apply within_write_dev1 | lia]
  | |- within _ (write_dev2 _ 250) => apply (within_weaken 1); [apply within_write_dev2 | lia]
  | |- within _ (goto_by_first_port _ _) =>
      unfold goto_by_first_port; within_walk
  | |- within _ (outb _ _) => polls_nothing
  | |- within _ (get _) => polls_nothing
  | |- within _ (ret _) => polls_nothing
  | |- within _ (do_return _) => polls_nothing
  | |- within _ (goto _) => polls_nothing
  | |- within _ (set_first_port _) => polls_nothing
  | |- within _ (set_second_port _) => polls_nothing
  | |- within _ abandon_first => polls_nothing
  | |- within _ abandon_second => polls_nothing
  | |- within _ (input_allocate_device _) => polls_nothing
  | |- within _ (input_register_device _) => polls_nothing
  | |- within _ (request_irq _ _) => polls_nothing
  | |- within _ (free_irq _ _) => polls_nothing
  | |- within _ (input_unregister_device _) => polls_nothing
  | |- within _ (input_free_device _) => polls_nothing
  end.

Lemma configure_controller_within : within 12 configure_controller.
Proof.
  unfold configure_controller, disable_ports, flush_output_buffer, set_config_byte,
    self_test, probe_dual_channel, interface_check, enable_ports, reset_devices.
  within_walk.
Qed.

Lemma init_module_body_within : within 28 init_module_body.
Proof.
  unfold init_module_body, configure_controller, detect_devices, register_devices,
    disable_ports, flush_output_buffer, set_config_byte,
    self_test, probe_dual_channel, interface_check, enable_ports, reset_devices,
    detect_first, detect_second, register_first, register_second.
  within_walk.
Qed.

Lemma leave_polls_nothing (r : outcome unit * world) :
  env (snd (leave r)) = env (snd r) /\ n_status (snd (leave r)) = n_status (snd r).
Proof. destruct r as [[[]|c|[]] w]; split; reflexivity. Qed.

(** X18. Bring-up never waits more than 28 times: from load to return,
    [init_module] reads the status register at most 28 times the number of
    polls that fit into one wait of 250 ms, whatever the controller, the
    devices and the kernel do.  The bound is reached when both ports come up
    and every wait is answered at its last poll. *)
Theorem init_module_polls_are_bounded (w : world) :
  (n_status (snd (init_module w)) <= n_status w + 28 * polls (env w) 250)%nat.
Proof.
  unfold init_module.
  destruct (leave_polls_nothing (init_module_body w)) as (_ & ->).
  apply init_module_body_within.
Qed.

(** Two keyboards on a machine where one poll fits into a wait. *)
Lemma init_module_polls_are_bounded_witness :
  let w := fresh (mkEnv (fun _ => 0x01) (fun n => nth n (two_keyboards ++ [0xFA]) 0)
                        (fun _ => 1%nat) (fun _ => true) (fun _ => 0) (fun _ => 0)) in
  fst (init_module w) = 0 /\
  n_status (snd (init_module w)) = 28%nat /\
  (n_status (snd (init_module w)) <= n_status w + 28 * polls (env w) 250)%nat.
Proof.
  intros w. split; [vm_compute; reflexivity|]. split; [vm_compute; reflexivity|].
  exact (init_module_polls_are_bounded w).
Defined.
